(** * xmldsigjs: the X509Data key-info clause and the algorithm abstraction

    A shallow embedding of [src/key/x509_data.ts] and [src/algorithm.ts].

    - JavaScript strings are sequences of UTF-16 code units ([jsstring]);
      a [Uint8Array] is a [list byte].
    - The mutable object [KeyInfoX509Data] is a record; its methods are
      computations in a state-and-exception monad [M], so that a method that
      throws after having mutated the object keeps the mutation.
    - A field declared without initializer is [None] ([undefined]) until its
      first write; [null] is [None] as well ([x == null] and the truthiness
      test do not tell them apart).
    - The DOM is a tree of element and text nodes.
    - A promise is its fate: fulfilled, rejected or never settled.
    - The cryptographic provider, the XML serializer and the key export of
      a certificate are parameters; the codec ([Convert]) and the lookups
      of the XML base class are modelled. *)

From Stdlib Require Import List String Ascii NArith ZArith Bool Lia.
From Stdlib.Strings Require Import Byte.
Import ListNotations.

Local Open Scope N_scope.

Set Warnings "-register-all".

(** ** JavaScript values *)

(** A JavaScript string: its UTF-16 code units. *)
Definition jsstring := list N.

(** A [Uint8Array]. *)
Definition bytes := list byte.

(** The code units of an 8-bit string literal. *)
Definition js (s : string) : jsstring :=
  map N_of_ascii (list_ascii_of_string s).

(** Truthiness of a string: only the empty string is falsy. *)
Definition truthy (s : jsstring) : bool :=
  match s with [] => false | _ :: _ => true end.

Definition byte_of_N (n : N) : byte :=
  match Byte.of_N (n mod 256) with Some b => b | None => x00 end.

Definition jsstring_eqb (a b : jsstring) : bool :=
  if list_eq_dec N.eq_dec a b then true else false.

(** ** The codec (xmljs [Convert]) *)

Module Convert.

Inductive Encoding := utf8 | binary.

(** *** Base64 *)

(** Modelled from the spec: the external codec's base64 alphabet
    (RFC 4648), sextet to code unit. *)
Definition enc6 (n : N) : N :=
  if n <? 26 then 65 + n
  else if n <? 52 then 71 + n
  else if n <? 62 then n - 4
  else if n =? 62 then 43
  else 47.

Definition dec6 (c : N) : option N :=
  if (65 <=? c) && (c <=? 90) then Some (c - 65)
  else if (97 <=? c) && (c <=? 122) then Some (c - 71)
  else if (48 <=? c) && (c <=? 57) then Some (c + 4)
  else if c =? 43 then Some 62
  else if c =? 47 then Some 63
  else None.

(** The padding character [=]. *)
Definition pad : N := 61.

(** Modelled from the spec: [Convert.ToBase64], the external codec's
    base64 encoder: three octets give four characters, the last group is
    padded. *)
Fixpoint ToBase64 (bs : bytes) : jsstring :=
  match bs with
  | [] => []
  | [a] =>
      let a := Byte.to_N a in
      [enc6 (a / 4); enc6 ((a mod 4) * 16); pad; pad]
  | [a; b] =>
      let a := Byte.to_N a in
      let b := Byte.to_N b in
      [enc6 (a / 4); enc6 ((a mod 4) * 16 + b / 16);
       enc6 ((b mod 16) * 4); pad]
  | a :: b :: c :: rest =>
      let a := Byte.to_N a in
      let b := Byte.to_N b in
      let c := Byte.to_N c in
      enc6 (a / 4) :: enc6 ((a mod 4) * 16 + b / 16)
        :: enc6 ((b mod 16) * 4 + c / 64) :: enc6 (c mod 64)
        :: ToBase64 rest
  end.

(** The octets of one full group of four sextets. *)
Definition group3 (s1 s2 s3 s4 : N) : bytes :=
  [byte_of_N (s1 * 4 + s2 / 16);
   byte_of_N ((s2 mod 16) * 16 + s3 / 4);
   byte_of_N ((s3 mod 4) * 64 + s4)].

(** Modelled from the spec: [Convert.FromBase64], the external codec's
    base64 decoder. [None] stands for the exception raised on text that
    is not base64. *)
Fixpoint FromBase64 (cs : jsstring) : option bytes :=
  match cs with
  | [] => Some []
  | c1 :: c2 :: c3 :: c4 :: rest =>
      match dec6 c1, dec6 c2 with
      | Some s1, Some s2 =>
          match rest with
          | [] =>
              if c4 =? pad then
                if c3 =? pad then Some [byte_of_N (s1 * 4 + s2 / 16)]
                else
                  match dec6 c3 with
                  | Some s3 =>
                      Some [byte_of_N (s1 * 4 + s2 / 16);
                            byte_of_N ((s2 mod 16) * 16 + s3 / 4)]
                  | None => None
                  end
              else
                match dec6 c3, dec6 c4 with
                | Some s3, Some s4 => Some (group3 s1 s2 s3 s4)
                | _, _ => None
                end
          | _ :: _ =>
              match dec6 c3, dec6 c4, FromBase64 rest with
              | Some s3, Some s4, Some tl => Some (group3 s1 s2 s3 s4 ++ tl)
              | _, _, _ => None
              end
          end
      | _, _ => None
      end
  | _ => None
  end.

(** *** Text encodings *)

(** The UTF-8 octets of one code point. *)
Definition utf8_of_code_point (cp : N) : bytes :=
  if cp <? 128 then [byte_of_N cp]
  else if cp <? 2048 then
    [byte_of_N (192 + cp / 64); byte_of_N (128 + cp mod 64)]
  else if cp <? 65536 then
    [byte_of_N (224 + cp / 4096); byte_of_N (128 + (cp / 64) mod 64);
     byte_of_N (128 + cp mod 64)]
  else
    [byte_of_N (240 + cp / 262144); byte_of_N (128 + (cp / 4096) mod 64);
     byte_of_N (128 + (cp / 64) mod 64); byte_of_N (128 + cp mod 64)].

Definition is_high_surrogate (c : N) : bool := (55296 <=? c) && (c <=? 56319).
Definition is_low_surrogate (c : N) : bool := (56320 <=? c) && (c <=? 57343).

(** U+FFFD, written for a surrogate that has no partner. *)
Definition replacement : N := 65533.

(** Modelled from the spec: the external codec's UTF-8 encoder, over
    UTF-16 code units: a surrogate pair is one code point. *)
Fixpoint FromUtf8String (s : jsstring) : bytes :=
  match s with
  | [] => []
  | c :: t =>
      if is_high_surrogate c then
        match t with
        | d :: t' =>
            if is_low_surrogate d then
              utf8_of_code_point
                (65536 + (c - 55296) * 1024 + (d - 56320))
                ++ FromUtf8String t'
            else utf8_of_code_point replacement ++ FromUtf8String t
        | [] => utf8_of_code_point replacement
        end
      else if is_low_surrogate c then
        utf8_of_code_point replacement ++ FromUtf8String t
      else utf8_of_code_point c ++ FromUtf8String t
  end.

(** Modelled from the spec: the external codec's binary-safe encoder:
    one octet per code unit, its low eight bits. *)
Definition FromBinary (s : jsstring) : bytes := map byte_of_N s.

(** [Convert.FromString(text, encoding)]. *)
Definition FromString (s : jsstring) (enc : Encoding) : bytes :=
  match enc with
  | utf8 => FromUtf8String s
  | binary => FromBinary s
  end.

End Convert.

(** ** The DOM *)

(** A DOM node: an element with its namespace, prefix, local name and child
    nodes, or a text node. *)
Inductive Node :=
| Element (namespaceURI prefix localName : jsstring) (childNodes : list Node)
| TextNode (data : jsstring).

(** [node.textContent] (getter): the text of all descendants, in document
    order. *)
Fixpoint textContent (n : Node) : jsstring :=
  match n with
  | TextNode d => d
  | Element _ _ _ cs => List.concat (map textContent cs)
  end.

(** The children a write of [textContent] leaves: one text node, or
    nothing when the value is [null] or empty. *)
Definition text_nodes (v : option jsstring) : list Node :=
  match v with
  | Some (c :: s) => [TextNode (c :: s)]
  | _ => []
  end.

(** [node.textContent = v] (setter). *)
Definition set_textContent (v : option jsstring) (n : Node) : Node :=
  match n with
  | Element ns p l _ => Element ns p l (text_nodes v)
  | TextNode _ => TextNode match v with Some s => s | None => [] end
  end.

Definition appendChild (child parent : Node) : Node :=
  match parent with
  | Element ns p l cs => Element ns p l (cs ++ [child])
  | TextNode d => TextNode d
  end.

Definition children (n : Node) : list Node :=
  match n with
  | Element _ _ _ cs => cs
  | TextNode _ => []
  end.

(** [doc.createElementNS(ns, prefix + local)]: the qualified name is kept
    as its two parts. *)
Definition createElementNS (ns p l : jsstring) : Node := Element ns p l [].

(** The test of the child lookups: an element node of that local name in
    that namespace. *)
Definition is_element (name ns : jsstring) (n : Node) : bool :=
  match n with
  | Element ns' _ l _ => jsstring_eqb l name && jsstring_eqb ns' ns
  | TextNode _ => false
  end.

(** ** Names ([XmlSignature]) *)

Module XmlSignature.
Definition NamespaceURI : jsstring := js "http://www.w3.org/2000/09/xmldsig#".
Definition DefaultPrefix : jsstring := js "ds".
Module ElementNames.
Definition X509Data := js "X509Data".
Definition X509IssuerSerial := js "X509IssuerSerial".
Definition X509IssuerName := js "X509IssuerName".
Definition X509SerialNumber := js "X509SerialNumber".
Definition X509SKI := js "X509SKI".
Definition X509SubjectName := js "X509SubjectName".
Definition X509Certificate := js "X509Certificate".
Definition X509CRL := js "X509CRL".
End ElementNames.
End XmlSignature.

(** ** Errors, completions, promises *)

Inductive XE :=
| PARAM_REQUIRED | NULL_PARAM | METHOD_NOT_SUPPORTED | METHOD_NOT_IMPLEMENTED
| ELEMENT_MALFORMED | ELEMENT_MISSING.

Inductive JsError :=
| XmlError (code : XE) (arg : jsstring)
| TypeError
| InvalidCharacterError
| ProviderError (tag : N).

(** How a call ends: it returns or it throws. *)
Inductive Completion (A : Type) :=
| Normal (a : A)
| Throw (e : JsError).
Arguments Normal {A} a.
Arguments Throw {A} e.

(** The fate of a promise. [Pending] is a promise that is never settled. *)
Inductive Promise (A : Type) :=
| Fulfilled (a : A)
| Rejected (e : JsError)
| Pending.
Arguments Fulfilled {A} a.
Arguments Rejected {A} e.
Arguments Pending {A}.

(** ** Collaborators of the key-info clause *)

Record Algorithm := { alg_name : jsstring }.

Inductive CryptoKey := mkCryptoKey (handle : N).

(** Modelled from the spec: [X509Certificate] ([./x509_certificate] is not
    among the sources): an opaque certificate object built from its raw
    encoded bytes and giving them back. *)
Record X509Certificate := new_X509Certificate { GetRawCertData : bytes }.

Record X509IssuerSerial := {
  issuerName : jsstring;
  serialNumber : option jsstring
}.

Inductive X509IncludeOption := None_ | EndCertOnly | ExcludeRoot | WholeChain.

(** ** The object and its monad *)

(** The fields of a [KeyInfoX509Data] instance: [element] and [prefix] are
    those of the XML base class, the others are the private fields of the
    class. A list that was never allocated is [None]. *)
Record KeyInfoX509Data := {
  element : option Node;
  prefix : jsstring;
  x509crl : option bytes;
  IssuerSerialList : option (list X509IssuerSerial);
  SubjectKeyIdList : option (list bytes);
  SubjectNameList : option (list jsstring);
  X509CertificateList : option (list X509Certificate);
  key : option CryptoKey
}.

Definition set_element v (o : KeyInfoX509Data) : KeyInfoX509Data :=
  {| element := v; prefix := prefix o; x509crl := x509crl o;
     IssuerSerialList := IssuerSerialList o;
     SubjectKeyIdList := SubjectKeyIdList o;
     SubjectNameList := SubjectNameList o;
     X509CertificateList := X509CertificateList o; key := key o |}.

Definition set_prefix v (o : KeyInfoX509Data) : KeyInfoX509Data :=
  {| element := element o; prefix := v; x509crl := x509crl o;
     IssuerSerialList := IssuerSerialList o;
     SubjectKeyIdList := SubjectKeyIdList o;
     SubjectNameList := SubjectNameList o;
     X509CertificateList := X509CertificateList o; key := key o |}.

Definition set_x509crl v (o : KeyInfoX509Data) : KeyInfoX509Data :=
  {| element := element o; prefix := prefix o; x509crl := v;
     IssuerSerialList := IssuerSerialList o;
     SubjectKeyIdList := SubjectKeyIdList o;
     SubjectNameList := SubjectNameList o;
     X509CertificateList := X509CertificateList o; key := key o |}.

Definition set_IssuerSerialList v (o : KeyInfoX509Data) : KeyInfoX509Data :=
  {| element := element o; prefix := prefix o; x509crl := x509crl o;
     IssuerSerialList := v;
     SubjectKeyIdList := SubjectKeyIdList o;
     SubjectNameList := SubjectNameList o;
     X509CertificateList := X509CertificateList o; key := key o |}.

Definition set_SubjectKeyIdList v (o : KeyInfoX509Data) : KeyInfoX509Data :=
  {| element := element o; prefix := prefix o; x509crl := x509crl o;
     IssuerSerialList := IssuerSerialList o;
     SubjectKeyIdList := v;
     SubjectNameList := SubjectNameList o;
     X509CertificateList := X509CertificateList o; key := key o |}.

Definition set_SubjectNameList v (o : KeyInfoX509Data) : KeyInfoX509Data :=
  {| element := element o; prefix := prefix o; x509crl := x509crl o;
     IssuerSerialList := IssuerSerialList o;
     SubjectKeyIdList := SubjectKeyIdList o;
     SubjectNameList := v;
     X509CertificateList := X509CertificateList o; key := key o |}.

Definition set_X509CertificateList v (o : KeyInfoX509Data) : KeyInfoX509Data :=
  {| element := element o; prefix := prefix o; x509crl := x509crl o;
     IssuerSerialList := IssuerSerialList o;
     SubjectKeyIdList := SubjectKeyIdList o;
     SubjectNameList := SubjectNameList o;
     X509CertificateList := v; key := key o |}.

(** A method body: it reads and writes [this] and returns or throws. What
    was written before a throw stays written. *)
Definition M (A : Type) : Type :=
  KeyInfoX509Data -> KeyInfoX509Data * Completion A.

Definition ret {A} (a : A) : M A := fun this => (this, Normal a).

Definition throw {A} (e : JsError) : M A := fun this => (this, Throw e).

Definition bind {A B} (m : M A) (k : A -> M B) : M B :=
  fun this =>
    match m this with
    | (this', Normal a) => k a this'
    | (this', Throw e) => (this', Throw e)
    end.

Definition gets {A} (f : KeyInfoX509Data -> A) : M A :=
  fun this => (this, Normal (f this)).

Definition modify (f : KeyInfoX509Data -> KeyInfoX509Data) : M unit :=
  fun this => (f this, Normal tt).

Definition lift {A} (c : Completion A) : M A := fun this => (this, c).

Declare Scope method_scope.
Delimit Scope method_scope with method.
Notation "x <- m ;; k" := (bind m (fun x => k))
  (at level 61, m at next level, right associativity) : method_scope.
Notation "m ;; k" := (bind m (fun _ => k))
  (at level 61, right associativity) : method_scope.
Local Open Scope method_scope.

(** [if (c) body]. *)
Definition when (c : bool) (body : M unit) : M unit :=
  if c then body else ret tt.

(** [for (let x of l) body]. *)
Fixpoint for_of {A} (l : list A) (body : A -> M unit) : M unit :=
  match l with
  | [] => ret tt
  | x :: l' => body x ;; for_of l' body
  end.

(** [x == null]. *)
Definition is_null {A} (x : option A) : bool :=
  match x with None => true | Some _ => false end.

(** Truthiness of a reference: every object, also the empty array, is
    truthy; [undefined] and [null] are not. *)
Definition truthy_ref {A} (x : option A) : bool := negb (is_null x).

(** [list.push(x)] on a field; on a list that was never allocated the call
    is a [TypeError]. *)
Definition push {A} (get : KeyInfoX509Data -> option (list A))
    (set : option (list A) -> KeyInfoX509Data -> KeyInfoX509Data)
    (x : A) : M unit :=
  l <- gets get ;;
  match l with
  | Some l => modify (set (Some (l ++ [x])))
  | None => throw TypeError
  end.

(** ** The XML base class *)

(** The name of the element of this clause ([protected name]). *)
Definition name : jsstring := XmlSignature.ElementNames.X509Data.

(** Modelled from the spec: the static child lookup of the XML base class
    (the XML-building capability, external): the first child element of
    that name and namespace. The last argument is the flag the callers
    pass: with [true] a missing child is the error [ELEMENT_MISSING], with
    [false] it is [null]. *)
Definition static_GetChild (node : Node) (localName nameSpace : jsstring)
    (required : bool) : Completion (option Node) :=
  match find (is_element localName nameSpace) (children node) with
  | Some child => Normal (Some child)
  | None =>
      if required then Throw (XmlError ELEMENT_MISSING localName)
      else Normal None
  end.

(** Modelled from the spec: [this.GetChildren(localName)] of the XML base
    class: the child elements of that name in the signature namespace. *)
Definition GetChildren (localName : jsstring) : M (list Node) :=
  e <- gets element ;;
  match e with
  | None => throw (XmlError NULL_PARAM name)
  | Some e =>
      ret (filter (is_element localName XmlSignature.NamespaceURI) (children e))
  end.

(** Modelled from the spec: [this.GetChild(localName, required)] of the
    XML base class. *)
Definition GetChild (localName : jsstring) (required : bool)
    : M (option Node) :=
  e <- gets element ;;
  match e with
  | None => throw (XmlError NULL_PARAM name)
  | Some e =>
      lift (static_GetChild e localName XmlSignature.NamespaceURI required)
  end.

(** Modelled from the spec: [super.LoadXml(element)] of the XML base class:
    it takes the element of this clause's name and namespace and keeps it,
    with its prefix. *)
Definition XmlObject_LoadXml (e : Node) : M unit :=
  match e with
  | Element _ p _ _ =>
      if is_element name XmlSignature.NamespaceURI e then
        modify (set_element (Some e)) ;; modify (set_prefix p)
      else throw (XmlError ELEMENT_MALFORMED name)
  | TextNode _ => throw (XmlError ELEMENT_MALFORMED name)
  end.

(** [this.GetPrefix()]: the prefix part of the qualified names. *)
Definition GetPrefix (this : KeyInfoX509Data) : jsstring := prefix this.

(** [this.CreateElement(doc)]: the empty element of this clause. *)
Definition CreateElement (this : KeyInfoX509Data) : Node :=
  createElementNS XmlSignature.NamespaceURI (GetPrefix this) name.

(** ** KeyInfoX509Data *)

(** The fields as the field initializers leave them. *)
Definition init : KeyInfoX509Data :=
  {| element := None; prefix := XmlSignature.DefaultPrefix;
     x509crl := None;
     IssuerSerialList := None;
     SubjectKeyIdList := Some [];
     SubjectNameList := None;
     X509CertificateList := None;
     key := None |}.

Definition AddCertificatesChainFrom (cert : X509Certificate) (root : bool)
    : M unit :=
  throw (XmlError METHOD_NOT_IMPLEMENTED []).

Definition Certificates (this : KeyInfoX509Data) := X509CertificateList this.
Definition CRL (this : KeyInfoX509Data) := x509crl this.
Definition set_CRL (value : option bytes) : M unit :=
  modify (set_x509crl value).
Definition IssuerSerials (this : KeyInfoX509Data) := IssuerSerialList this.
Definition SubjectKeyIds (this : KeyInfoX509Data) := SubjectKeyIdList this.
Definition SubjectNames (this : KeyInfoX509Data) := SubjectNameList this.
Definition Key (this : KeyInfoX509Data) := key this.

Definition AddCertificate (certificate : option X509Certificate) : M unit :=
  match certificate with
  | None => throw (XmlError PARAM_REQUIRED (js "certificate"))
  | Some certificate =>
      l <- gets X509CertificateList ;;
      when (is_null l) (modify (set_X509CertificateList (Some []))) ;;
      push X509CertificateList set_X509CertificateList certificate
  end.

Definition AddIssuerSerial (issuerName : option jsstring)
    (serialNumber : option jsstring) : M unit :=
  match issuerName with
  | None => throw (XmlError PARAM_REQUIRED (js "issuerName"))
  | Some issuerName =>
      l <- gets IssuerSerialList ;;
      when (is_null l) (modify (set_IssuerSerialList (Some []))) ;;
      let xis := {| issuerName := issuerName; serialNumber := serialNumber |} in
      push IssuerSerialList set_IssuerSerialList xis
  end.

(** The two overloads of [AddSubjectKeyId]. *)
Inductive SubjectKeyIdArg :=
| SkiString (subjectKeyId : jsstring)
| SkiBytes (subjectKeyId : bytes).

Definition AddSubjectKeyId (subjectKeyId : SubjectKeyIdArg) : M unit :=
  l <- gets SubjectKeyIdList ;;
  when (truthy_ref l) (modify (set_SubjectKeyIdList (Some []))) ;;
  match subjectKeyId with
  | SkiString s =>
      match Convert.FromBase64 s with
      | Some id => push SubjectKeyIdList set_SubjectKeyIdList id
      | None => throw InvalidCharacterError
      end
  | SkiBytes b => push SubjectKeyIdList set_SubjectKeyIdList b
  end.

Definition AddSubjectName (subjectName : jsstring) : M unit :=
  l <- gets SubjectNameList ;;
  when (is_null l) (modify (set_SubjectNameList (Some []))) ;;
  push SubjectNameList set_SubjectNameList subjectName.

(** The constructor's first argument. *)
Inductive CertArg :=
| RawCert (rgbCert : bytes)
| CertObject (cert : X509Certificate).

Definition constructor (cert : option CertArg)
    (includeOptions : X509IncludeOption) : M unit :=
  match cert with
  | None => ret tt
  | Some (RawCert rgbCert) =>
      AddCertificate (Some (new_X509Certificate rgbCert))
  | Some (CertObject cert) =>
      match includeOptions with
      | None_ | EndCertOnly => AddCertificate (Some cert)
      | ExcludeRoot => AddCertificatesChainFrom cert false
      | WholeChain => AddCertificatesChainFrom cert true
      end
  end.

(** [new KeyInfoX509Data()]. *)
Definition new_KeyInfoX509Data : KeyInfoX509Data :=
  fst (constructor None None_ init).

Definition importKey (k : CryptoKey) : Promise unit :=
  Rejected (XmlError METHOD_NOT_SUPPORTED []).

Section ExportKey.

(** The key export of the certificate object, an external collaborator. *)
Variable cert_exportKey : X509Certificate -> Algorithm -> Promise CryptoKey.

(** The executor reads [this.Certificates.length]: on a list that was
    never allocated that is a [TypeError], which rejects the promise; on
    an empty list neither [resolve] nor [reject] is ever called. *)
Definition exportKey (alg : Algorithm) (this : KeyInfoX509Data)
    : Promise CryptoKey :=
  match Certificates this with
  | None => Rejected TypeError
  | Some [] => Pending
  | Some (c :: _) => cert_exportKey c alg
  end.

End ExportKey.

(** The children [GetXml] appends for one entry of each collection. *)
Definition IssuerSerial_xml (p : jsstring) (iser : X509IssuerSerial) : Node :=
  let isl := createElementNS XmlSignature.NamespaceURI p
               XmlSignature.ElementNames.X509IssuerSerial in
  let xin := createElementNS XmlSignature.NamespaceURI p
               XmlSignature.ElementNames.X509IssuerName in
  let xin := set_textContent (Some (issuerName iser)) xin in
  let isl := appendChild xin isl in
  let xsn := createElementNS XmlSignature.NamespaceURI p
               XmlSignature.ElementNames.X509SerialNumber in
  let xsn := set_textContent (serialNumber iser) xsn in
  appendChild xsn isl.

Definition SKI_xml (p : jsstring) (skid : bytes) : Node :=
  set_textContent (Some (Convert.ToBase64 skid))
    (createElementNS XmlSignature.NamespaceURI p
       XmlSignature.ElementNames.X509SKI).

Definition SubjectName_xml (p : jsstring) (subject : jsstring) : Node :=
  set_textContent (Some subject)
    (createElementNS XmlSignature.NamespaceURI p
       XmlSignature.ElementNames.X509SubjectName).

Definition Certificate_xml (p : jsstring) (x509 : X509Certificate) : Node :=
  set_textContent (Some (Convert.ToBase64 (GetRawCertData x509)))
    (createElementNS XmlSignature.NamespaceURI p
       XmlSignature.ElementNames.X509Certificate).

Definition CRL_xml (p : jsstring) (crl : bytes) : Node :=
  set_textContent (Some (Convert.ToBase64 crl))
    (createElementNS XmlSignature.NamespaceURI p
       XmlSignature.ElementNames.X509CRL).

(** The child [GetXml] appends for the CRL, if there is one. *)
Definition crl_children (p : jsstring) (crl : option bytes) : list Node :=
  match crl with Some crl => [CRL_xml p crl] | None => [] end.

(** One block of [GetXml]: [if (list != null && list.length > 0)
    for (let x of list) xel.appendChild(...)]. *)
Definition append_all {A} (l : option (list A)) (f : A -> Node) (xel : Node)
    : Node :=
  match l with
  | Some (x :: l') =>
      fold_left (fun xel x => appendChild (f x) xel) (x :: l') xel
  | _ => xel
  end.

Definition GetXml (this : KeyInfoX509Data) : Node :=
  let xel := CreateElement this in
  let p := GetPrefix this in
  let xel := append_all (IssuerSerialList this) (IssuerSerial_xml p) xel in
  let xel := append_all (SubjectKeyIdList this) (SKI_xml p) xel in
  let xel := append_all (SubjectNameList this) (SubjectName_xml p) xel in
  let xel := append_all (X509CertificateList this) (Certificate_xml p) xel in
  match x509crl this with
  | Some crl => appendChild (CRL_xml p crl) xel
  | None => xel
  end.

(** [Convert.FromBase64] as a call that may throw. *)
Definition FromBase64_call (s : jsstring) : M bytes :=
  match Convert.FromBase64 s with
  | Some b => ret b
  | None => throw InvalidCharacterError
  end.

(** The body of the first loop of [LoadXml]. *)
Definition LoadXml_IssuerSerial (xel : Node) : M unit :=
  issuer <- lift (static_GetChild xel XmlSignature.ElementNames.X509IssuerName
                    XmlSignature.NamespaceURI true) ;;
  serial <- lift (static_GetChild xel XmlSignature.ElementNames.X509SerialNumber
                    XmlSignature.NamespaceURI true) ;;
  match issuer, serial with
  | Some issuer, Some serial =>
      when (truthy (textContent issuer) && truthy (textContent serial))
        (AddIssuerSerial (Some (textContent issuer))
           (Some (textContent serial)))
  | _, _ => ret tt
  end.

(** The second part of [LoadXml], from the comment [<X509IssuerSerial>]
    on: the five groups of children are read, in this order. The tests
    [if (xnl)] and [if (xnl != null)] hold for every list of children, also
    the empty one, and are left out. *)
Definition LoadXml_children : M unit :=
  (* <X509IssuerSerial> *)
  xnl <- GetChildren XmlSignature.ElementNames.X509IssuerSerial ;;
  for_of xnl LoadXml_IssuerSerial ;;
  (* <X509SKI> *)
  xnl <- GetChildren XmlSignature.ElementNames.X509SKI ;;
  for_of xnl (fun xel =>
    when (truthy (textContent xel))
      (skid <- FromBase64_call (textContent xel) ;;
       AddSubjectKeyId (SkiBytes skid))) ;;
  (* <X509SubjectName> *)
  xnl <- GetChildren XmlSignature.ElementNames.X509SubjectName ;;
  for_of xnl (fun xel =>
    when (truthy (textContent xel)) (AddSubjectName (textContent xel))) ;;
  (* <X509Certificate> *)
  xnl <- GetChildren XmlSignature.ElementNames.X509Certificate ;;
  for_of xnl (fun xel =>
    when (truthy (textContent xel))
      (cert <- FromBase64_call (textContent xel) ;;
       AddCertificate (Some (new_X509Certificate cert)))) ;;
  (* only one <X509CRL> *)
  x509el <- GetChild XmlSignature.ElementNames.X509CRL false ;;
  match x509el with
  | Some x509el =>
      when (truthy (textContent x509el))
        (crl <- FromBase64_call (textContent x509el) ;;
         modify (set_x509crl (Some crl)))
  | None => ret tt
  end.

(** [LoadXml]: the base class takes the element, the lists that are
    allocated are emptied and the CRL is reset, then the children are
    read. *)
Definition LoadXml (element : Node) : M unit :=
  XmlObject_LoadXml element ;;
  l <- gets IssuerSerialList ;;
  when (truthy_ref l) (modify (set_IssuerSerialList (Some []))) ;;
  l <- gets SubjectKeyIdList ;;
  when (truthy_ref l) (modify (set_SubjectKeyIdList (Some []))) ;;
  l <- gets SubjectNameList ;;
  when (truthy_ref l) (modify (set_SubjectNameList (Some []))) ;;
  l <- gets X509CertificateList ;;
  when (truthy_ref l) (modify (set_X509CertificateList (Some []))) ;;
  modify (set_x509crl None) ;;
  LoadXml_children.

(** ** The algorithm abstraction *)

Record XmlAlgorithm := {
  algorithm : Algorithm;
  xmlNamespace : jsstring
}.

Definition getAlgorithmName (this : XmlAlgorithm) : jsstring :=
  xmlNamespace this.

(** The cryptographic provider ([Application.crypto.subtle]), an external
    collaborator: each primitive receives its arguments and gives a
    promise. *)
Record SubtleCrypto := {
  digest : Algorithm -> bytes -> Promise bytes;
  sign : Algorithm -> CryptoKey -> bytes -> Promise bytes;
  verify : Algorithm -> CryptoKey -> bytes -> bytes -> Promise bool
}.

(** The three shapes of the argument of [getHash]. *)
Inductive HashInput :=
| HashString (xml : jsstring)
| HashUint8Array (xml : bytes)
| HashNode (xml : Node).

Section Algorithms.

Variable crypto : SubtleCrypto.

(** [new XMLSerializer().serializeToString], an external collaborator. *)
Variable serializeToString : Node -> jsstring.

Definition getHash (this : XmlAlgorithm) (xml : HashInput) : Promise bytes :=
  let buf :=
    match xml with
    | HashString xml => Convert.FromString xml Convert.utf8
    | HashUint8Array xml => xml
    | HashNode xml =>
        let txt := serializeToString xml in
        Convert.FromString txt Convert.utf8
    end in
  digest crypto (algorithm this) buf.

Definition getSignature (this : XmlAlgorithm) (signedInfo : jsstring)
    (signingKey : CryptoKey) (algorithm : Algorithm) : Promise bytes :=
  sign crypto algorithm signingKey
    (Convert.FromString signedInfo Convert.binary).

Definition verifySignature (this : XmlAlgorithm) (signedInfo : jsstring)
    (key : CryptoKey) (signatureValue : jsstring)
    (algorithm' : option Algorithm) : Promise bool :=
  let _signatureValue := Convert.FromString signatureValue Convert.binary in
  let _signedInfo := Convert.FromString signedInfo Convert.utf8 in
  verify crypto
    match algorithm' with Some a => a | None => algorithm this end
    key _signatureValue _signedInfo.

End Algorithms.

(** A transparent provider, to observe the octets that reach it: the
    digest and the signature of a message are the message itself, and a
    signature verifies when it is the message. *)
Definition bytes_eqb (a b : bytes) : bool :=
  if list_eq_dec Byte.byte_eq_dec a b then true else false.

Definition echo_crypto : SubtleCrypto :=
  {| digest := fun _ data => Fulfilled data;
     sign := fun _ _ data => Fulfilled data;
     verify := fun _ _ signature data => Fulfilled (bytes_eqb signature data) |}.

(** ** Sequences of calls *)

(** The calls that populate an instance. *)
Inductive Call :=
| CallAddCertificate (certificate : option X509Certificate)
| CallAddIssuerSerial (issuerName serialNumber : option jsstring)
| CallAddSubjectKeyId (subjectKeyId : SubjectKeyIdArg)
| CallAddSubjectName (subjectName : jsstring)
| CallSetCRL (value : option bytes).

Definition call (c : Call) : M unit :=
  match c with
  | CallAddCertificate certificate => AddCertificate certificate
  | CallAddIssuerSerial i s => AddIssuerSerial i s
  | CallAddSubjectKeyId v => AddSubjectKeyId v
  | CallAddSubjectName n => AddSubjectName n
  | CallSetCRL v => set_CRL v
  end.

(** An instance populated by these calls, each of which returned: the
    caller of a call that throws does not go on. *)
Inductive populated : KeyInfoX509Data -> Prop :=
| populated_new : populated new_KeyInfoX509Data
| populated_call (c : Call) (this this' : KeyInfoX509Data) :
    populated this -> call c this = (this', Normal tt) -> populated this'.

(** The five fields a parse fills, a list that was never allocated read as
    the empty list. *)
Definition list_of {A} (l : option (list A)) : list A :=
  match l with Some l => l | None => [] end.

Record Contents := {
  c_issuerSerials : list X509IssuerSerial;
  c_subjectKeyIds : list bytes;
  c_subjectNames : list jsstring;
  c_certificates : list X509Certificate;
  c_crl : option bytes
}.

Definition contents (this : KeyInfoX509Data) : Contents :=
  {| c_issuerSerials := list_of (IssuerSerialList this);
     c_subjectKeyIds := list_of (SubjectKeyIdList this);
     c_subjectNames := list_of (SubjectNameList this);
     c_certificates := list_of (X509CertificateList this);
     c_crl := x509crl this |}.

(** The local names of the children of an element, in document order. *)
Definition child_names (n : Node) : list jsstring :=
  flat_map (fun c => match c with
                     | Element _ _ l _ => [l]
                     | TextNode _ => []
                     end) (children n).

(** ** Entries that survive a round trip

    [LoadXml] skips every child whose text is empty, so an entry is read
    back only when its text on the wire is not empty. *)

Definition nonempty {A} (l : list A) : bool :=
  match l with [] => false | _ :: _ => true end.

Definition IssuerSerial_written (iser : X509IssuerSerial) : bool :=
  nonempty (issuerName iser)
  && match serialNumber iser with Some s => nonempty s | None => false end.

Definition all_written (this : KeyInfoX509Data) : bool :=
  forallb IssuerSerial_written (list_of (IssuerSerialList this))
  && forallb nonempty (list_of (SubjectKeyIdList this))
  && forallb nonempty (list_of (SubjectNameList this))
  && forallb (fun c => nonempty (GetRawCertData c))
       (list_of (X509CertificateList this))
  && match x509crl this with Some crl => nonempty crl | None => true end.

(** ** The state between the two parts of LoadXml *)

(** A list after [if (list) list = []]. *)
Definition cleared {A} (l : option (list A)) : option (list A) :=
  match l with Some _ => Some [] | None => None end.

(** The instance when [LoadXml] has taken the element and cleared the
    fields, before it reads the children. *)
Definition LoadXml_cleared (e : Node) (this : KeyInfoX509Data)
    : KeyInfoX509Data :=
  {| element := Some e;
     prefix := match e with Element _ p _ _ => p | TextNode _ => prefix this end;
     x509crl := None;
     IssuerSerialList := cleared (IssuerSerialList this);
     SubjectKeyIdList := cleared (SubjectKeyIdList this);
     SubjectNameList := cleared (SubjectNameList this);
     X509CertificateList := cleared (X509CertificateList this);
     key := key this |}.

(** The element [LoadXml] accepts. *)
Definition is_X509Data (e : Node) : bool :=
  is_element name XmlSignature.NamespaceURI e.

(** The instances a program can hold: made by the constructor, then
    subjected to any calls; a call that throws leaves an instance too. *)
Inductive reachable : KeyInfoX509Data -> Prop :=
| reachable_new cert includeOptions this :
    constructor cert includeOptions init = (this, Normal tt) ->
    reachable this
| reachable_call c this :
    reachable this -> reachable (fst (call c this))
| reachable_LoadXml e this :
    reachable this -> reachable (fst (LoadXml e this)).

(** Two instances that hold the same element and the same entries, the
    lists other than the subject-key-id list read up to allocation. *)
Definition similar (s1 s2 : KeyInfoX509Data) : Prop :=
  element s1 = element s2
  /\ contents s1 = contents s2
  /\ SubjectKeyIdList s1 = SubjectKeyIdList s2.

(** A method body that cannot tell similar instances apart. *)
Definition respects {A} (m : M A) : Prop :=
  forall s1 s2,
    similar s1 s2 ->
    similar (fst (m s1)) (fst (m s2)) /\ snd (m s1) = snd (m s2).

(** A method body that keeps the subject-key-id list allocated. *)
Definition keeps_SubjectKeyIdList {A} (m : M A) : Prop :=
  forall s, SubjectKeyIdList s <> None -> SubjectKeyIdList (fst (m s)) <> None.

(** ** The shape of a populated instance *)

(** A list after a loop of [LoadXml] has added the entries [l] to it: it
    is untouched when there is none. *)
Definition filled {A} (prev : option (list A)) (l : list A)
    : option (list A) :=
  match l with
  | [] => prev
  | _ :: _ => Some (list_of prev ++ l)
  end.

(** What the [Add*] methods keep true: a list is allocated by its first
    entry, and the subject-key-id list, which every call starts over, never
    holds more than one. *)
Definition lazily_allocated (this : KeyInfoX509Data) : Prop :=
  IssuerSerialList this <> Some []
  /\ SubjectNameList this <> Some []
  /\ X509CertificateList this <> Some []
  /\ exists l, SubjectKeyIdList this = Some l /\ (List.length l <= 1)%nat.

(** The instance that [LoadXml] makes of a new instance when it reads back
    the element [GetXml] has built for [this]. *)
Definition read_back (this : KeyInfoX509Data) : KeyInfoX509Data :=
  {| element := Some (GetXml this);
     prefix := prefix this;
     x509crl := x509crl this;
     IssuerSerialList := IssuerSerialList this;
     SubjectKeyIdList := SubjectKeyIdList this;
     SubjectNameList := SubjectNameList this;
     X509CertificateList := X509CertificateList this;
     key := None |}.

(** ** Sample documents *)

(** An element in the signature namespace, without prefix. *)
Definition ds (localName : jsstring) (childNodes : list Node) : Node :=
  Element XmlSignature.NamespaceURI [] localName childNodes.

(** [<X509Data/>]. *)
Definition empty_X509Data : Node := ds XmlSignature.ElementNames.X509Data [].

(** An [X509IssuerSerial] group that lacks its [X509SerialNumber], followed
    by a subject name:
    [<X509Data><X509IssuerSerial><X509IssuerName>CN=a</X509IssuerName>
    </X509IssuerSerial><X509SubjectName>CN=b</X509SubjectName></X509Data>]. *)
Definition X509Data_without_serial : Node :=
  ds XmlSignature.ElementNames.X509Data
    [ds XmlSignature.ElementNames.X509IssuerSerial
       [ds XmlSignature.ElementNames.X509IssuerName [TextNode (js "CN=a")]];
     ds XmlSignature.ElementNames.X509SubjectName [TextNode (js "CN=b")]].

(** [<X509Data><X509SKI>QUJD</X509SKI><X509SubjectName>CN=b</X509SubjectName>
    </X509Data>]. *)
Definition X509Data_with_entries : Node :=
  ds XmlSignature.ElementNames.X509Data
    [ds XmlSignature.ElementNames.X509SKI [TextNode (js "QUJD")];
     ds XmlSignature.ElementNames.X509SubjectName [TextNode (js "CN=b")]].

(** An [X509IssuerSerial] group that has both children, the serial number
    without text. *)
Definition X509Data_with_empty_serial : Node :=
  ds XmlSignature.ElementNames.X509Data
    [ds XmlSignature.ElementNames.X509IssuerSerial
       [ds XmlSignature.ElementNames.X509IssuerName [TextNode (js "CN=a")];
        ds XmlSignature.ElementNames.X509SerialNumber []];
     ds XmlSignature.ElementNames.X509SubjectName [TextNode (js "CN=b")]].

(** A sample certificate, algorithm and key. *)
Definition sample_cert : X509Certificate := new_X509Certificate [x30; x03; x02].
Definition sample_alg : Algorithm := {| alg_name := js "RSASSA-PKCS1-v1_5" |}.
Definition sample_key : CryptoKey := mkCryptoKey 1.
Definition sample_XmlAlgorithm : XmlAlgorithm :=
  {| algorithm := sample_alg;
     xmlNamespace := js "http://www.w3.org/2000/09/xmldsig#rsa-sha1" |}.

(** An instance populated by interleaved calls, every entry with text. *)
Definition sample_instance : KeyInfoX509Data :=
  fst (call (CallSetCRL (Some [x01; x02]))
    (fst (call (CallAddIssuerSerial (Some (js "CN=cb")) (Some (js "18")))
      (fst (call (CallAddSubjectName (js "CN=b"))
        (fst (call (CallAddSubjectKeyId (SkiString (js "QUJD")))
          (fst (call (CallAddCertificate (Some sample_cert))
            (fst (call (CallAddSubjectName (js "CN=a"))
              (fst (call (CallAddIssuerSerial (Some (js "CN=ca"))
                            (Some (js "17")))
                     new_KeyInfoX509Data))))))))))))).

(** An instance whose one subject name is the empty string. *)
Definition instance_with_empty_name : KeyInfoX509Data :=
  fst (call (CallAddSubjectName []) new_KeyInfoX509Data).

(** ** Further notions *)

(** A text all of whose code units are below 128. *)
Definition is_ascii (s : jsstring) : bool := forallb (fun c => c <? 128) s.

(** A method body that keeps a property of the instance, whether it
    returns or throws. *)
Definition preserves {A} (P : KeyInfoX509Data -> Prop) (m : M A) : Prop :=
  forall s, P s -> P (fst (m s)).

(** The subject-key-id list is allocated and holds at most one entry. *)
Definition at_most_one_SubjectKeyId (this : KeyInfoX509Data) : Prop :=
  exists l, SubjectKeyIds this = Some l /\ (List.length l <= 1)%nat.

(** The instance after a sequence of populating calls, a call that throws
    not stopping the ones after it (the caller catches). *)
Definition after_calls (cs : list Call) (this : KeyInfoX509Data)
    : KeyInfoX509Data :=
  fold_left (fun this c => fst (call c this)) cs this.

(** The non-empty texts of the children of an element that have a given
    name (in the signature namespace), in document order. *)
Definition child_texts (n : jsstring) (e : Node) : list jsstring :=
  filter truthy
    (map textContent
       (filter (is_element n XmlSignature.NamespaceURI) (children e))).

(** The pair an [X509IssuerSerial] group stands for: none when one of its
    two children is missing or has no text. *)
Definition IssuerSerial_of (g : Node) : list X509IssuerSerial :=
  match find (is_element XmlSignature.ElementNames.X509IssuerName
                XmlSignature.NamespaceURI) (children g),
        find (is_element XmlSignature.ElementNames.X509SerialNumber
                XmlSignature.NamespaceURI) (children g) with
  | Some issuer, Some serial =>
      if truthy (textContent issuer) && truthy (textContent serial)
      then [{| issuerName := textContent issuer;
               serialNumber := Some (textContent serial) |}]
      else []
  | _, _ => []
  end.

(** The entry a child with base64 text stands for: none when it has no
    text. *)
Definition decoded_text {A} (f : bytes -> A) (xel : Node) : list A :=
  if truthy (textContent xel) then
    match Convert.FromBase64 (textContent xel) with
    | Some b => [f b]
    | None => []
    end
  else [].

(** A child whose text, if it has one, is base64. *)
Definition decodable (xel : Node) : Prop :=
  truthy (textContent xel) = true ->
  Convert.FromBase64 (textContent xel) <> None.

(** The last element of a list, as a list. *)
Definition last_one {A} (l : list A) : list A :=
  match rev l with [] => [] | x :: _ => [x] end.

(** A list after a loop whose body starts the list over before each of the
    entries [l] it adds: it is untouched when there is none. *)
Definition restarted {A} (prev : option (list A)) (l : list A)
    : option (list A) :=
  match last_one l with [] => prev | x :: _ => Some [x] end.

(** An [X509IssuerSerial] group that has its two children. *)
Definition has_both_children (g : Node) : Prop :=
  find (is_element XmlSignature.ElementNames.X509IssuerName
          XmlSignature.NamespaceURI) (children g) <> None
  /\ find (is_element XmlSignature.ElementNames.X509SerialNumber
             XmlSignature.NamespaceURI) (children g) <> None.

(** The children of an element that have a given name, in the signature
    namespace. *)
Definition children_named (n : jsstring) (e : Node) : list Node :=
  filter (is_element n XmlSignature.NamespaceURI) (children e).

(** What the reading of the children asks of an element: it is an
    [X509Data], each of its [X509IssuerSerial] groups has its two
    children, and the texts of its [X509SKI] and [X509Certificate]
    children and of its first [X509CRL] child are base64 for the decoder
    of this file. *)
Definition parses (e : Node) : Prop :=
  is_X509Data e = true
  /\ Forall has_both_children
       (children_named XmlSignature.ElementNames.X509IssuerSerial e)
  /\ Forall decodable (children_named XmlSignature.ElementNames.X509SKI e)
  /\ Forall decodable
       (children_named XmlSignature.ElementNames.X509Certificate e)
  /\ match find (is_element XmlSignature.ElementNames.X509CRL
                   XmlSignature.NamespaceURI) (children e) with
     | Some c => decodable c
     | None => True
     end.

(** The errors of a parse: the element is not an [X509Data], a child of
    an [X509IssuerSerial] group is missing, or a text is not base64. *)
Definition parse_error (err : JsError) : Prop :=
  err = XmlError ELEMENT_MALFORMED name
  \/ err = XmlError ELEMENT_MISSING XmlSignature.ElementNames.X509IssuerName
  \/ err = XmlError ELEMENT_MISSING XmlSignature.ElementNames.X509SerialNumber
  \/ err = InvalidCharacterError.

(** What holds when a method body ends: [Qn] of the value and the instance
    when it returns, [Qt] of the error and the instance when it throws,
    provided [P] held of the instance at the start. *)
Definition triple {A} (P : KeyInfoX509Data -> Prop) (m : M A)
    (Qn : A -> KeyInfoX509Data -> Prop)
    (Qt : JsError -> KeyInfoX509Data -> Prop) : Prop :=
  forall s,
    P s ->
    match snd (m s) with
    | Normal a => Qn a (fst (m s))
    | Throw err => Qt err (fst (m s))
    end.

(** A sample element with entries of every kind, some of them without
    text, and two CRLs. *)
Definition X509Data_sample : Node :=
  ds XmlSignature.ElementNames.X509Data
    [ds XmlSignature.ElementNames.X509IssuerSerial
       [ds XmlSignature.ElementNames.X509IssuerName [TextNode (js "CN=a")];
        ds XmlSignature.ElementNames.X509SerialNumber [TextNode (js "17")]];
     ds XmlSignature.ElementNames.X509IssuerSerial
       [ds XmlSignature.ElementNames.X509IssuerName [TextNode (js "CN=b")];
        ds XmlSignature.ElementNames.X509SerialNumber []];
     ds XmlSignature.ElementNames.X509SKI [TextNode (js "QUJD")];
     ds XmlSignature.ElementNames.X509SKI [TextNode (js "REVG")];
     ds XmlSignature.ElementNames.X509SubjectName [TextNode (js "CN=c")];
     ds XmlSignature.ElementNames.X509SubjectName [];
     ds XmlSignature.ElementNames.X509SubjectName [TextNode (js "CN=d")];
     ds XmlSignature.ElementNames.X509Certificate [TextNode (js "MAMC")];
     ds XmlSignature.ElementNames.X509CRL [TextNode (js "AQI=")];
     ds XmlSignature.ElementNames.X509CRL [TextNode (js "AwQ=")]].

(** The instance a new instance becomes when it parses the sample. *)
Definition sample_parsed : KeyInfoX509Data :=
  fst (LoadXml X509Data_sample new_KeyInfoX509Data).

(** What holds of the instance while [LoadXml] reads the children of the
    element [e]. *)
Definition reading (e : Node) (s : KeyInfoX509Data) : Prop :=
  element s = Some e /\ SubjectKeyIdList s <> None /\ x509crl s = None.

(** What holds when the reading of the children of [e] throws. *)
Definition broken (e : Node) (err : JsError) (s : KeyInfoX509Data) : Prop :=
  parse_error err /\ ~ parses e /\ reading e s.

(** An instance some of whose entries are empty: a pair with an empty
    serial number, an empty subject name and an empty CRL, beside entries
    with text. *)
Definition instance_with_empty_entries : KeyInfoX509Data :=
  fst (call (CallSetCRL (Some []))
    (fst (call (CallAddSubjectName (js "CN=x"))
      (fst (call (CallAddSubjectName [])
        (fst (call (CallAddIssuerSerial (Some (js "CN=b")) (Some (js "18")))
          (fst (call (CallAddIssuerSerial (Some (js "CN=a")) (Some []))
                 new_KeyInfoX509Data))))))))).

(** * Properties *)

(** ** The codec on examples *)

Example FromBase64_QUJD :
  Convert.FromBase64 (js "QUJD") = Some [x41; x42; x43].
Proof. reflexivity. Qed.

Example ToBase64_ABC : Convert.ToBase64 [x41; x42; x43] = js "QUJD".
Proof. reflexivity. Qed.

Example ToBase64_padded :
  Convert.ToBase64 [x41] = js "QQ==" /\ Convert.ToBase64 [x41; x42] = js "QUI=".
Proof. split; reflexivity. Qed.

Example FromBase64_padded :
  Convert.FromBase64 (js "QQ==") = Some [x41]
  /\ Convert.FromBase64 (js "QUI=") = Some [x41; x42]
  /\ Convert.FromBase64 (js "Q") = None.
Proof. repeat split; reflexivity. Qed.

Example FromString_encodings :
  Convert.FromString [233] Convert.utf8 = [xc3; xa9]
  /\ Convert.FromString [233] Convert.binary = [xe9]
  /\ Convert.FromString (js "<a/>") Convert.utf8 = [x3c; x61; x2f; x3e].
Proof. repeat split; reflexivity. Qed.

(** ** Base64 gives back the bytes *)

Ltac euclid := intros; zify; Z.to_euclidean_division_equations; lia.

Lemma byte_of_N_to_N (b : byte) : byte_of_N (Byte.to_N b) = b.
Proof.
  unfold byte_of_N. pose proof (Byte.to_N_bounded b) as Hb.
  rewrite N.mod_small by lia. now rewrite Byte.of_to_N.
Qed.

Lemma dec6_enc6 (n : N) : n < 64 -> Convert.dec6 (Convert.enc6 n) = Some n.
Proof.
  intros Hn. unfold Convert.enc6.
  destruct (N.ltb_spec n 26); [|destruct (N.ltb_spec n 52);
    [|destruct (N.ltb_spec n 62); [|destruct (N.eqb_spec n 62)]]];
    unfold Convert.dec6;
    repeat match goal with
    | |- context [N.leb ?a ?b] => destruct (N.leb_spec a b); cbn [andb]
    | |- context [N.eqb ?a ?b] => destruct (N.eqb_spec a b)
    end; try lia; f_equal; lia.
Qed.

Lemma enc6_not_pad (n : N) : (Convert.enc6 n =? Convert.pad) = false.
Proof.
  apply N.eqb_neq. unfold Convert.enc6, Convert.pad.
  destruct (N.ltb_spec n 26); [|destruct (N.ltb_spec n 52);
    [|destruct (N.ltb_spec n 62); [|destruct (N.eqb_spec n 62)]]]; lia.
Qed.

Lemma ToBase64_cons (a : byte) (bs : bytes) :
  exists c cs, Convert.ToBase64 (a :: bs) = c :: cs.
Proof. destruct bs as [|b [|c bs]]; simpl; eauto. Qed.

Lemma truthy_ToBase64 (bs : bytes) :
  truthy (Convert.ToBase64 bs) = nonempty bs.
Proof.
  destruct bs as [|a bs]; [reflexivity|].
  destruct (ToBase64_cons a bs) as (c & cs & ->). reflexivity.
Qed.

Lemma FromBase64_full_group (c1 c2 c3 c4 s1 s2 s3 s4 : N) (rest : jsstring) :
  Convert.dec6 c1 = Some s1 -> Convert.dec6 c2 = Some s2 ->
  Convert.dec6 c3 = Some s3 -> Convert.dec6 c4 = Some s4 ->
  (c4 =? Convert.pad) = false ->
  Convert.FromBase64 (c1 :: c2 :: c3 :: c4 :: rest)
    = match Convert.FromBase64 rest with
      | Some tl => Some (Convert.group3 s1 s2 s3 s4 ++ tl)
      | None => None
      end.
Proof.
  intros H1 H2 H3 H4 Hp. cbn [Convert.FromBase64].
  rewrite H1, H2, H3, H4. destruct rest as [|r rest].
  - rewrite Hp. cbn [Convert.group3 app]. reflexivity.
  - reflexivity.
Qed.

Lemma group3_bytes (a b c : byte) :
  Convert.group3 (Byte.to_N a / 4)
    ((Byte.to_N a mod 4) * 16 + Byte.to_N b / 16)
    ((Byte.to_N b mod 16) * 4 + Byte.to_N c / 64)
    (Byte.to_N c mod 64)
  = [a; b; c].
Proof.
  pose proof (Byte.to_N_bounded a). pose proof (Byte.to_N_bounded b).
  pose proof (Byte.to_N_bounded c). unfold Convert.group3.
  replace (Byte.to_N a / 4 * 4
           + ((Byte.to_N a mod 4) * 16 + Byte.to_N b / 16) / 16)
    with (Byte.to_N a) by euclid.
  replace ((((Byte.to_N a mod 4) * 16 + Byte.to_N b / 16) mod 16) * 16
           + ((Byte.to_N b mod 16) * 4 + Byte.to_N c / 64) / 4)
    with (Byte.to_N b) by euclid.
  replace ((((Byte.to_N b mod 16) * 4 + Byte.to_N c / 64) mod 4) * 64
           + Byte.to_N c mod 64)
    with (Byte.to_N c) by euclid.
  now rewrite !byte_of_N_to_N.
Qed.

Lemma FromBase64_ToBase64_1 (a : byte) :
  Convert.FromBase64 (Convert.ToBase64 [a]) = Some [a].
Proof.
  pose proof (Byte.to_N_bounded a). cbn [Convert.ToBase64 Convert.FromBase64].
  rewrite !dec6_enc6 by euclid. rewrite !N.eqb_refl.
  replace (Byte.to_N a / 4 * 4 + (Byte.to_N a mod 4) * 16 / 16)
    with (Byte.to_N a) by euclid.
  now rewrite byte_of_N_to_N.
Qed.

Lemma FromBase64_ToBase64_2 (a b : byte) :
  Convert.FromBase64 (Convert.ToBase64 [a; b]) = Some [a; b].
Proof.
  pose proof (Byte.to_N_bounded a). pose proof (Byte.to_N_bounded b).
  cbn [Convert.ToBase64 Convert.FromBase64].
  rewrite !dec6_enc6 by euclid. rewrite N.eqb_refl, enc6_not_pad.
  replace (Byte.to_N a / 4 * 4
           + ((Byte.to_N a mod 4) * 16 + Byte.to_N b / 16) / 16)
    with (Byte.to_N a) by euclid.
  replace ((((Byte.to_N a mod 4) * 16 + Byte.to_N b / 16) mod 16) * 16
           + (Byte.to_N b mod 16) * 4 / 4)
    with (Byte.to_N b) by euclid.
  now rewrite !byte_of_N_to_N.
Qed.

Lemma FromBase64_ToBase64_3 (a b c : byte) (rest : bytes) :
  Convert.FromBase64 (Convert.ToBase64 rest) = Some rest ->
  Convert.FromBase64 (Convert.ToBase64 (a :: b :: c :: rest))
    = Some (a :: b :: c :: rest).
Proof.
  intros IH. pose proof (Byte.to_N_bounded a). pose proof (Byte.to_N_bounded b).
  pose proof (Byte.to_N_bounded c). cbn [Convert.ToBase64].
  rewrite (FromBase64_full_group _ _ _ _
             (Byte.to_N a / 4)
             ((Byte.to_N a mod 4) * 16 + Byte.to_N b / 16)
             ((Byte.to_N b mod 16) * 4 + Byte.to_N c / 64)
             (Byte.to_N c mod 64))
    by (try apply enc6_not_pad; apply dec6_enc6; euclid).
  rewrite IH, group3_bytes. reflexivity.
Qed.

(** Decoding the base64 text of a byte array gives the array back. *)
Theorem FromBase64_ToBase64 (bs : bytes) :
  Convert.FromBase64 (Convert.ToBase64 bs) = Some bs.
Proof.
  enough (H : Convert.FromBase64 (Convert.ToBase64 bs) = Some bs
              /\ (forall a, Convert.FromBase64 (Convert.ToBase64 (a :: bs))
                            = Some (a :: bs))
              /\ (forall a b, Convert.FromBase64 (Convert.ToBase64 (a :: b :: bs))
                              = Some (a :: b :: bs))) by apply H.
  induction bs as [|x bs (IH0 & IH1 & IH2)].
  - repeat split; intros.
    + apply FromBase64_ToBase64_1.
    + apply FromBase64_ToBase64_2.
  - repeat split; intros.
    + apply IH1.
    + apply IH2.
    + now apply FromBase64_ToBase64_3.
Qed.

(** ** Parameter validation *)

(** C9: [AddCertificate] with an absent certificate and [AddIssuerSerial]
    with an absent issuer name throw [PARAM_REQUIRED], and the instance is
    as it was before the call. *)
Theorem C9_required_parameter_checked_before_mutation :
  forall (this : KeyInfoX509Data) (serialNumber : option jsstring),
    AddCertificate None this
      = (this, Throw (XmlError PARAM_REQUIRED (js "certificate")))
    /\ AddIssuerSerial None serialNumber this
      = (this, Throw (XmlError PARAM_REQUIRED (js "issuerName"))).
Proof. intros this serialNumber. split; reflexivity. Qed.

(** C10: with an issuer name and an absent serial number [AddIssuerSerial]
    returns normally and the pair, with its absent serial number, is the
    new last entry of the issuer-serial list; the other fields are as
    before. *)
Theorem C10_AddIssuerSerial_accepts_absent_serial :
  forall (this : KeyInfoX509Data) (issuer : jsstring),
    AddIssuerSerial (Some issuer) None this
      = (set_IssuerSerialList
           (Some (list_of (IssuerSerialList this)
                    ++ [{| issuerName := issuer; serialNumber := None |}]))
           this,
         Normal tt).
Proof.
  intros this issuer. destruct this as [e p crl isl skl snl certs k].
  destruct isl; reflexivity.
Qed.

(** ** AddSubjectKeyId *)

(** The text [QUJD] and the bytes of [ABC] are stored as the same bytes. *)
Lemma AddSubjectKeyId_QUJD_ABC :
  forall this : KeyInfoX509Data,
    AddSubjectKeyId (SkiString (js "QUJD")) this
      = AddSubjectKeyId (SkiBytes [x41; x42; x43]) this.
Proof. intros this. reflexivity. Qed.

(** C2, on the code: the second of two [AddSubjectKeyId] calls on a new
    instance leaves only its own entry: the entry of the first call is
    gone. *)
Theorem C2_AddSubjectKeyId_drops_stored_entries :
  (AddSubjectKeyId (SkiString (js "QUJD")) ;;
   AddSubjectKeyId (SkiString (js "REVG"))) new_KeyInfoX509Data
    = (set_SubjectKeyIdList (Some [[x44; x45; x46]]) new_KeyInfoX509Data,
       Normal tt).
Proof. reflexivity. Qed.

(** ** exportKey *)

(** With a first certificate, the promise of [exportKey] is the promise of
    that certificate's key export, fulfilled or rejected as it is. *)
Lemma exportKey_first_certificate :
  forall cert_exportKey alg (this : KeyInfoX509Data) c l,
    Certificates this = Some (c :: l) ->
    exportKey cert_exportKey alg this = cert_exportKey c alg.
Proof. intros ce alg this c l H. unfold exportKey. rewrite H. reflexivity. Qed.

(** C4, on the code: on a new instance the promise of [exportKey] is
    rejected with a [TypeError]; on an instance whose certificates a parse
    has cleared it is never settled. It is fulfilled in neither case. *)
Theorem C4_exportKey_without_certificate :
  forall cert_exportKey alg,
    exportKey cert_exportKey alg new_KeyInfoX509Data = Rejected TypeError
    /\ exportKey cert_exportKey alg
         (fst ((AddCertificate (Some sample_cert) ;; LoadXml empty_X509Data)
                 new_KeyInfoX509Data))
       = Pending.
Proof. intros ce alg. split; reflexivity. Qed.

(** ** The algorithm abstraction *)

(** The octets [getSignature] and [verifySignature] hand to the provider. *)
Lemma getSignature_octets :
  forall crypto this signedInfo key alg,
    getSignature crypto this signedInfo key alg
      = sign crypto alg key (Convert.FromString signedInfo Convert.binary).
Proof. reflexivity. Qed.

Lemma verifySignature_octets :
  forall crypto this signedInfo key signatureValue alg,
    verifySignature crypto this signedInfo key signatureValue alg
      = verify crypto
          match alg with Some a => a | None => algorithm this end key
          (Convert.FromString signatureValue Convert.binary)
          (Convert.FromString signedInfo Convert.utf8).
Proof. reflexivity. Qed.

(** C3, on the code: for the one-character text U+00E9, [getSignature]
    hands the provider the octet E9 and [verifySignature] the octets C3 A9;
    with the transparent provider, the signature [getSignature] made does
    not verify. *)
Theorem C3_verifySignature_encodes_signedInfo_as_utf8 :
  getSignature echo_crypto sample_XmlAlgorithm [233] sample_key sample_alg
    = Fulfilled [xe9]
  /\ verifySignature echo_crypto sample_XmlAlgorithm [233] sample_key [233]
       None
     = verify echo_crypto sample_alg sample_key [xe9] [xc3; xa9]
  /\ verifySignature echo_crypto sample_XmlAlgorithm [233] sample_key [233]
       None
     = Fulfilled false.
Proof. repeat split; reflexivity. Qed.

(** C8: [getHash] hands the provider's digest, under this algorithm's
    parameters, the UTF-8 octets of a text, the octets of a byte array as
    they are, and the UTF-8 octets of the serialization of a node; a text
    and its UTF-8 octets give the same promise, so do [<a/>] and its four
    octets. *)
Theorem C8_getHash_input_shapes :
  forall (crypto : SubtleCrypto) (serializeToString : Node -> jsstring)
         (this : XmlAlgorithm),
    (forall s,
        getHash crypto serializeToString this (HashString s)
          = digest crypto (algorithm this)
              (Convert.FromString s Convert.utf8))
    /\ (forall b,
        getHash crypto serializeToString this (HashUint8Array b)
          = digest crypto (algorithm this) b)
    /\ (forall n,
        getHash crypto serializeToString this (HashNode n)
          = digest crypto (algorithm this)
              (Convert.FromString (serializeToString n) Convert.utf8))
    /\ (forall s,
        getHash crypto serializeToString this (HashString s)
          = getHash crypto serializeToString this
              (HashUint8Array (Convert.FromString s Convert.utf8)))
    /\ getHash crypto serializeToString this (HashString (js "<a/>"))
       = getHash crypto serializeToString this
           (HashUint8Array [x3c; x61; x2f; x3e]).
Proof. intros crypto ser this. repeat split; reflexivity. Qed.

(** ** GetXml *)

Lemma fold_left_appendChild {A} (f : A -> Node) :
  forall (l : list A) ns p n cs,
    fold_left (fun xel x => appendChild (f x) xel) l (Element ns p n cs)
      = Element ns p n (cs ++ map f l).
Proof.
  induction l as [|x l IH]; intros ns p n cs; simpl.
  - now rewrite app_nil_r.
  - rewrite IH, <- app_assoc. reflexivity.
Qed.

Lemma append_all_Element {A} (l : option (list A)) (f : A -> Node) :
  forall ns p n cs,
    append_all l f (Element ns p n cs)
      = Element ns p n (cs ++ map f (list_of l)).
Proof.
  intros ns p n cs. destruct l as [[|x l]|]; unfold append_all.
  - simpl. now rewrite app_nil_r.
  - apply fold_left_appendChild.
  - simpl. now rewrite app_nil_r.
Qed.

Lemma GetXml_Element :
  forall this : KeyInfoX509Data,
    GetXml this
      = Element XmlSignature.NamespaceURI (prefix this) name
          (map (IssuerSerial_xml (prefix this)) (list_of (IssuerSerialList this))
           ++ map (SKI_xml (prefix this)) (list_of (SubjectKeyIdList this))
           ++ map (SubjectName_xml (prefix this))
                (list_of (SubjectNameList this))
           ++ map (Certificate_xml (prefix this))
                (list_of (X509CertificateList this))
           ++ crl_children (prefix this) (x509crl this)).
Proof.
  intros this. unfold GetXml, CreateElement, GetPrefix, createElementNS.
  rewrite !append_all_Element. simpl.
  destruct (x509crl this); simpl; rewrite <- ?app_assoc;
    try rewrite app_nil_r; reflexivity.
Qed.

Lemma flat_map_names {A} (f : A -> Node) (l : list A) (n : jsstring) :
  (forall x, exists ns p cs, f x = Element ns p n cs) ->
  flat_map (fun c => match c with
                     | Element _ _ l _ => [l]
                     | TextNode _ => []
                     end) (map f l)
    = repeat n (List.length l).
Proof.
  intros Hf. induction l as [|x l IH]; simpl; [reflexivity|].
  destruct (Hf x) as (ns & p & cs & ->). simpl. now rewrite IH.
Qed.

Lemma set_textContent_Element v ns p n cs :
  exists cs', set_textContent v (Element ns p n cs) = Element ns p n cs'.
Proof. simpl. eauto. Qed.

(** C7: the children of the element [GetXml] builds are the entries of the
    issuer-serial list, then those of the subject-key-id list, of the
    subject-name list and of the certificate list, each in its order, then
    the CRL if there is one; an empty list gives no child and a new
    instance an element without children; at most one child is an
    [X509CRL]; of two writes of the CRL the second one stays. *)
Theorem C7_GetXml_children_order :
  forall this : KeyInfoX509Data,
    children (GetXml this)
      = map (IssuerSerial_xml (prefix this)) (list_of (IssuerSerialList this))
        ++ map (SKI_xml (prefix this)) (list_of (SubjectKeyIdList this))
        ++ map (SubjectName_xml (prefix this)) (list_of (SubjectNameList this))
        ++ map (Certificate_xml (prefix this))
             (list_of (X509CertificateList this))
        ++ crl_children (prefix this) (x509crl this)
    /\ child_names (GetXml this)
      = repeat XmlSignature.ElementNames.X509IssuerSerial
          (List.length (list_of (IssuerSerialList this)))
        ++ repeat XmlSignature.ElementNames.X509SKI
             (List.length (list_of (SubjectKeyIdList this)))
        ++ repeat XmlSignature.ElementNames.X509SubjectName
             (List.length (list_of (SubjectNameList this)))
        ++ repeat XmlSignature.ElementNames.X509Certificate
             (List.length (list_of (X509CertificateList this)))
        ++ match x509crl this with
           | Some _ => [XmlSignature.ElementNames.X509CRL]
           | None => []
           end
    /\ (count_occ (list_eq_dec N.eq_dec) (child_names (GetXml this))
          XmlSignature.ElementNames.X509CRL <= 1)%nat
    /\ children (GetXml new_KeyInfoX509Data) = []
    /\ forall a b : option bytes,
         CRL (fst ((set_CRL a ;; set_CRL b) this)) = b.
Proof.
  intros this.
  assert (Hnames : child_names (GetXml this)
      = repeat XmlSignature.ElementNames.X509IssuerSerial
          (List.length (list_of (IssuerSerialList this)))
        ++ repeat XmlSignature.ElementNames.X509SKI
             (List.length (list_of (SubjectKeyIdList this)))
        ++ repeat XmlSignature.ElementNames.X509SubjectName
             (List.length (list_of (SubjectNameList this)))
        ++ repeat XmlSignature.ElementNames.X509Certificate
             (List.length (list_of (X509CertificateList this)))
        ++ match x509crl this with
           | Some _ => [XmlSignature.ElementNames.X509CRL]
           | None => []
           end).
  { unfold child_names. rewrite GetXml_Element. cbn [children].
    rewrite !flat_map_app. repeat f_equal.
    - apply flat_map_names. intros x. unfold IssuerSerial_xml, createElementNS.
      cbn [appendChild]. destruct (set_textContent_Element (serialNumber x)
        XmlSignature.NamespaceURI (prefix this)
        XmlSignature.ElementNames.X509SerialNumber []) as [cs ->].
      destruct (set_textContent_Element (Some (issuerName x))
        XmlSignature.NamespaceURI (prefix this)
        XmlSignature.ElementNames.X509IssuerName []) as [cs' ->].
      cbn [appendChild]. eauto.
    - apply flat_map_names. intros x. unfold SKI_xml, createElementNS.
      destruct (set_textContent_Element (Some (Convert.ToBase64 x))
        XmlSignature.NamespaceURI (prefix this)
        XmlSignature.ElementNames.X509SKI []) as [cs ->]. eauto.
    - apply flat_map_names. intros x. unfold SubjectName_xml, createElementNS.
      destruct (set_textContent_Element (Some x)
        XmlSignature.NamespaceURI (prefix this)
        XmlSignature.ElementNames.X509SubjectName []) as [cs ->]. eauto.
    - apply flat_map_names. intros x. unfold Certificate_xml, createElementNS.
      destruct (set_textContent_Element
        (Some (Convert.ToBase64 (GetRawCertData x)))
        XmlSignature.NamespaceURI (prefix this)
        XmlSignature.ElementNames.X509Certificate []) as [cs ->]. eauto.
    - destruct (x509crl this) as [crl|]; [|reflexivity].
      unfold crl_children, CRL_xml, createElementNS.
      destruct (set_textContent_Element (Some (Convert.ToBase64 crl))
        XmlSignature.NamespaceURI (prefix this)
        XmlSignature.ElementNames.X509CRL []) as [cs ->]. reflexivity. }
  split; [|split; [|split; [|split]]].
  - rewrite GetXml_Element. reflexivity.
  - exact Hnames.
  - rewrite Hnames, !count_occ_app.
    rewrite !count_occ_repeat_neq by (vm_compute; discriminate).
    destruct (x509crl this); simpl; lia.
  - reflexivity.
  - intros a b. reflexivity.
Qed.

(** ** The monad *)

Lemma bind_Normal {A B} (m : M A) (k : A -> M B) s s' a :
  m s = (s', Normal a) -> bind m k s = k a s'.
Proof. intros H. unfold bind. now rewrite H. Qed.


Lemma jsstring_eqb_refl (a : jsstring) : jsstring_eqb a a = true.
Proof. unfold jsstring_eqb. destruct (list_eq_dec N.eq_dec a a); congruence. Qed.

(** ** LoadXml: the first part *)

Lemma LoadXml_clears (e : Node) (this : KeyInfoX509Data) :
  is_X509Data e = true ->
  LoadXml e this = LoadXml_children (LoadXml_cleared e this).
Proof.
  intros H. destruct e as [ns p l cs|d]; [|discriminate H].
  unfold LoadXml, XmlObject_LoadXml. unfold is_X509Data in H. rewrite H.
  destruct this as [e0 p0 crl [isl|] [skl|] [snl|] [certs|] k]; reflexivity.
Qed.

Lemma LoadXml_rejects (e : Node) (this : KeyInfoX509Data) :
  is_X509Data e = false ->
  LoadXml e this = (this, Throw (XmlError ELEMENT_MALFORMED name)).
Proof.
  intros H. destruct e as [ns p l cs|d]; [|reflexivity].
  unfold LoadXml, XmlObject_LoadXml. unfold is_X509Data in H. rewrite H.
  reflexivity.
Qed.

(** ** Bodies that respect similarity *)

Lemma respects_ret {A} (a : A) : respects (ret a).
Proof. intros s1 s2 H. split; [exact H|reflexivity]. Qed.

Lemma respects_throw {A} (e : JsError) : respects (@throw A e).
Proof. intros s1 s2 H. split; [exact H|reflexivity]. Qed.

Lemma respects_lift {A} (c : Completion A) : respects (lift c).
Proof. intros s1 s2 H. split; [exact H|reflexivity]. Qed.

Lemma respects_bind {A B} (m : M A) (k : A -> M B) :
  respects m -> (forall a, respects (k a)) -> respects (bind m k).
Proof.
  intros Hm Hk s1 s2 H. destruct (Hm s1 s2 H) as [Hs Hc]. unfold bind.
  destruct (m s1) as [s1' c1], (m s2) as [s2' c2]. simpl in Hs, Hc. subst c2.
  destruct c1 as [a|e]; [apply Hk; exact Hs|]. split; [exact Hs|reflexivity].
Qed.

Lemma respects_when (c : bool) (body : M unit) :
  respects body -> respects (when c body).
Proof. intros H. destruct c; [exact H|apply respects_ret]. Qed.

Lemma respects_for_of {A} (l : list A) (body : A -> M unit) :
  (forall x, respects (body x)) -> respects (for_of l body).
Proof.
  intros H. induction l as [|x l IH]; simpl.
  - apply respects_ret.
  - apply respects_bind; [apply H|intros _; exact IH].
Qed.

Lemma respects_gets_element : respects (gets element).
Proof.
  intros s1 s2 H. split; [exact H|]. destruct H as [He _]. simpl. now rewrite He.
Qed.

Lemma respects_GetChildren (n : jsstring) : respects (GetChildren n).
Proof.
  apply respects_bind; [apply respects_gets_element|].
  intros [e|]; [apply respects_ret|apply respects_throw].
Qed.

Lemma respects_GetChild (n : jsstring) (required : bool) :
  respects (GetChild n required).
Proof.
  apply respects_bind; [apply respects_gets_element|].
  intros [e|]; [apply respects_lift|apply respects_throw].
Qed.

Lemma respects_FromBase64_call (s : jsstring) : respects (FromBase64_call s).
Proof.
  unfold FromBase64_call.
  destruct (Convert.FromBase64 s); [apply respects_ret|apply respects_throw].
Qed.

Ltac similar_fields :=
  let s1 := fresh "s" in let s2 := fresh "s" in let H := fresh "H" in
  intros s1 s2 H;
  destruct s1 as [? ? ? [?|] [?|] [?|] [?|] ?],
           s2 as [? ? ? [?|] [?|] [?|] [?|] ?];
  destruct H as (He & Hc & Hs); unfold contents in Hc; simpl in He, Hc, Hs;
  injection Hc as; subst; try discriminate;
  unfold similar, contents; simpl; auto.

Lemma respects_AddIssuerSerial i sn : respects (AddIssuerSerial i sn).
Proof. destruct i; [|apply respects_throw]. similar_fields. Qed.

Lemma respects_AddSubjectName n : respects (AddSubjectName n).
Proof. similar_fields. Qed.

Lemma respects_AddCertificate c : respects (AddCertificate c).
Proof. destruct c; [|apply respects_throw]. similar_fields. Qed.

Lemma respects_AddSubjectKeyId v : respects (AddSubjectKeyId v).
Proof.
  destruct v as [s|b].
  - unfold AddSubjectKeyId. destruct (Convert.FromBase64 s); similar_fields.
  - similar_fields.
Qed.

Lemma respects_set_x509crl v : respects (modify (set_x509crl v)).
Proof. similar_fields. Qed.

Lemma respects_LoadXml_IssuerSerial xel : respects (LoadXml_IssuerSerial xel).
Proof.
  apply respects_bind; [apply respects_lift|]. intros issuer.
  apply respects_bind; [apply respects_lift|]. intros serial.
  destruct issuer, serial; try apply respects_ret.
  apply respects_when, respects_AddIssuerSerial.
Qed.

Lemma respects_LoadXml_children : respects LoadXml_children.
Proof.
  unfold LoadXml_children.
  repeat first
    [ apply respects_GetChildren
    | apply respects_GetChild
    | apply respects_for_of; intros ?
    | apply respects_when
    | apply respects_LoadXml_IssuerSerial
    | apply respects_FromBase64_call
    | apply respects_AddSubjectKeyId
    | apply respects_AddSubjectName
    | apply respects_AddCertificate
    | apply respects_set_x509crl
    | apply respects_ret
    | match goal with |- respects (match ?x with _ => _ end) => destruct x end
    | apply respects_bind; [|intros ?] ].
Qed.

(** ** Bodies that keep the subject-key-id list allocated *)

Lemma keeps_ret {A} (a : A) : keeps_SubjectKeyIdList (ret a).
Proof. intros s H. exact H. Qed.

Lemma keeps_throw {A} (e : JsError) : keeps_SubjectKeyIdList (@throw A e).
Proof. intros s H. exact H. Qed.

Lemma keeps_lift {A} (c : Completion A) : keeps_SubjectKeyIdList (lift c).
Proof. intros s H. exact H. Qed.

Lemma keeps_gets {A} (f : KeyInfoX509Data -> A) :
  keeps_SubjectKeyIdList (gets f).
Proof. intros s H. exact H. Qed.

Lemma keeps_bind {A B} (m : M A) (k : A -> M B) :
  keeps_SubjectKeyIdList m -> (forall a, keeps_SubjectKeyIdList (k a)) ->
  keeps_SubjectKeyIdList (bind m k).
Proof.
  intros Hm Hk s H. specialize (Hm s H). unfold bind.
  destruct (m s) as [s' [a|e]]; [apply Hk|]; exact Hm.
Qed.

Lemma keeps_when (c : bool) (body : M unit) :
  keeps_SubjectKeyIdList body -> keeps_SubjectKeyIdList (when c body).
Proof. intros H. destruct c; [exact H|apply keeps_ret]. Qed.

Lemma keeps_for_of {A} (l : list A) (body : A -> M unit) :
  (forall x, keeps_SubjectKeyIdList (body x)) ->
  keeps_SubjectKeyIdList (for_of l body).
Proof.
  intros H. induction l as [|x l IH]; simpl.
  - apply keeps_ret.
  - apply keeps_bind; [apply H|intros _; exact IH].
Qed.

Lemma keeps_modify (f : KeyInfoX509Data -> KeyInfoX509Data) :
  (forall s, SubjectKeyIdList s <> None -> SubjectKeyIdList (f s) <> None) ->
  keeps_SubjectKeyIdList (modify f).
Proof. intros H s Hs. apply H, Hs. Qed.

Ltac keeps_fields :=
  let s := fresh "s" in let H := fresh "H" in
  intros s H; destruct s as [? ? ? [?|] [?|] [?|] [?|] ?];
  simpl in *; congruence.

Lemma keeps_AddIssuerSerial i sn :
  keeps_SubjectKeyIdList (AddIssuerSerial i sn).
Proof. destruct i; keeps_fields. Qed.

Lemma keeps_AddSubjectName n : keeps_SubjectKeyIdList (AddSubjectName n).
Proof. keeps_fields. Qed.

Lemma keeps_AddCertificate c : keeps_SubjectKeyIdList (AddCertificate c).
Proof. destruct c; keeps_fields. Qed.

Lemma keeps_AddSubjectKeyId v : keeps_SubjectKeyIdList (AddSubjectKeyId v).
Proof.
  destruct v as [t|b].
  - unfold AddSubjectKeyId. destruct (Convert.FromBase64 t); keeps_fields.
  - keeps_fields.
Qed.

Lemma keeps_call c : keeps_SubjectKeyIdList (call c).
Proof.
  destruct c; unfold call.
  - apply keeps_AddCertificate.
  - apply keeps_AddIssuerSerial.
  - apply keeps_AddSubjectKeyId.
  - apply keeps_AddSubjectName.
  - keeps_fields.
Qed.

Lemma keeps_LoadXml_children : keeps_SubjectKeyIdList LoadXml_children.
Proof.
  unfold LoadXml_children, LoadXml_IssuerSerial, GetChildren, GetChild,
    FromBase64_call.
  repeat first
    [ apply keeps_for_of; intros ?
    | apply keeps_when
    | apply keeps_AddIssuerSerial
    | apply keeps_AddSubjectKeyId
    | apply keeps_AddSubjectName
    | apply keeps_AddCertificate
    | apply keeps_ret
    | apply keeps_throw
    | apply keeps_lift
    | apply keeps_gets
    | apply keeps_modify; keeps_fields
    | match goal with
      | |- keeps_SubjectKeyIdList (match ?x with _ => _ end) => destruct x
      end
    | apply keeps_bind; [|intros ?] ].
Qed.

Lemma keeps_LoadXml e : keeps_SubjectKeyIdList (LoadXml e).
Proof.
  intros s H. destruct (is_X509Data e) eqn:E.
  - rewrite LoadXml_clears by exact E. apply keeps_LoadXml_children.
    simpl. destruct (SubjectKeyIdList s); [discriminate|congruence].
  - rewrite LoadXml_rejects by exact E. exact H.
Qed.

Lemma keeps_constructor cert includeOptions :
  keeps_SubjectKeyIdList (constructor cert includeOptions).
Proof.
  destruct cert as [[b|c]|]; unfold constructor.
  - apply keeps_AddCertificate.
  - destruct includeOptions; try apply keeps_AddCertificate; apply keeps_throw.
  - apply keeps_ret.
Qed.

(** Every instance has its subject-key-id list allocated: the field
    initializer allocates it and no method takes it away. *)
Lemma reachable_SubjectKeyIdList (this : KeyInfoX509Data) :
  reachable this -> SubjectKeyIdList this <> None.
Proof.
  induction 1 as [cert opt this H|c this _ IH|e this _ IH].
  - change this with (fst (this, @Normal unit tt)). rewrite <- H.
    apply keeps_constructor. discriminate.
  - apply keeps_call, IH.
  - apply keeps_LoadXml, IH.
Qed.

Lemma reachable_new_KeyInfoX509Data : reachable new_KeyInfoX509Data.
Proof. apply (reachable_new None None_). reflexivity. Qed.

(** ** LoadXml and the prior state *)

Lemma similar_LoadXml_cleared (e : Node) (s1 s2 : KeyInfoX509Data) :
  SubjectKeyIdList s1 <> None -> SubjectKeyIdList s2 <> None ->
  similar (LoadXml_cleared e s1) (LoadXml_cleared e s2).
Proof.
  intros H1 H2.
  destruct s1 as [? ? ? [?|] [?|] [?|] [?|] ?],
           s2 as [? ? ? [?|] [?|] [?|] [?|] ?];
    simpl in H1, H2; try congruence; repeat split.
Qed.

(** C5, as the code has it: on two instances in any reachable states,
    [LoadXml] of the same X509Data element ends the same way (it returns,
    or it throws the same error) and leaves the same entries in the four
    collections and the same CRL. *)
Theorem C5_LoadXml_entries_independent_of_prior_state :
  forall (e : Node) (s1 s2 : KeyInfoX509Data),
    reachable s1 -> reachable s2 -> is_X509Data e = true ->
    contents (fst (LoadXml e s1)) = contents (fst (LoadXml e s2))
    /\ snd (LoadXml e s1) = snd (LoadXml e s2).
Proof.
  intros e s1 s2 R1 R2 He. rewrite !LoadXml_clears by exact He.
  destruct (respects_LoadXml_children
              (LoadXml_cleared e s1) (LoadXml_cleared e s2)) as [(_ & Hc & _) Hr].
  - apply similar_LoadXml_cleared; now apply reachable_SubjectKeyIdList.
  - split; assumption.
Qed.

(** C5, witness: a new instance and a populated one parse the same
    element to the same entries. *)
Lemma C5_LoadXml_entries_independent_witness :
  reachable new_KeyInfoX509Data /\ reachable sample_instance
  /\ is_X509Data X509Data_with_entries = true
  /\ contents (fst (LoadXml X509Data_with_entries new_KeyInfoX509Data))
     = contents (fst (LoadXml X509Data_with_entries sample_instance))
  /\ snd (LoadXml X509Data_with_entries new_KeyInfoX509Data)
     = snd (LoadXml X509Data_with_entries sample_instance).
Proof.
  assert (R : reachable sample_instance).
  { unfold sample_instance. repeat apply reachable_call.
    apply reachable_new_KeyInfoX509Data. }
  split; [apply reachable_new_KeyInfoX509Data|].
  split; [exact R|]. split; [reflexivity|].
  apply (C5_LoadXml_entries_independent_of_prior_state
           X509Data_with_entries new_KeyInfoX509Data sample_instance).
  - apply reachable_new_KeyInfoX509Data.
  - exact R.
  - reflexivity.
Defined.

(** C5, counterexample: a list that was never allocated stays [undefined]
    through a parse that finds no entry for it, while an allocated one
    becomes the empty array: after [LoadXml(<X509Data/>)] a new instance
    and a populated one are not in the same state. *)
Lemma C5_counterexample_unallocated_list :
  reachable new_KeyInfoX509Data /\ reachable sample_instance
  /\ is_X509Data empty_X509Data = true
  /\ SubjectNames (fst (LoadXml empty_X509Data new_KeyInfoX509Data)) = None
  /\ SubjectNames (fst (LoadXml empty_X509Data sample_instance)) = Some []
  /\ Certificates (fst (LoadXml empty_X509Data new_KeyInfoX509Data)) = None
  /\ Certificates (fst (LoadXml empty_X509Data sample_instance)) = Some []
  /\ fst (LoadXml empty_X509Data new_KeyInfoX509Data)
     <> fst (LoadXml empty_X509Data sample_instance).
Proof.
  split; [apply reachable_new_KeyInfoX509Data|].
  split; [unfold sample_instance; repeat apply reachable_call;
          apply reachable_new_KeyInfoX509Data|].
  repeat (split; [reflexivity|]).
  intros H. apply (f_equal SubjectNames) in H. discriminate H.
Qed.

(** ** LoadXml and missing children *)

Lemma GetChildren_Normal (n : jsstring) (s : KeyInfoX509Data) (e : Node) :
  element s = Some e ->
  GetChildren n s
    = (s, Normal (filter (is_element n XmlSignature.NamespaceURI) (children e))).
Proof. intros H. unfold GetChildren, bind, gets. rewrite H. reflexivity. Qed.

Lemma GetChild_false (n : jsstring) (s : KeyInfoX509Data) (e : Node) :
  element s = Some e ->
  GetChild n false s
    = (s, Normal (find (is_element n XmlSignature.NamespaceURI) (children e))).
Proof.
  intros H. unfold GetChild, bind, gets, lift, static_GetChild. rewrite H.
  destruct (find _ (children e)); reflexivity.
Qed.

Lemma filter_nil {A} (f : A -> bool) (l : list A) :
  (forall x, In x l -> f x = false) -> filter f l = [].
Proof.
  induction l as [|x l IH]; intros H; [reflexivity|]. simpl.
  rewrite H by (left; reflexivity). apply IH. intros y Hy. apply H. now right.
Qed.

(** An element without any of the five kinds of children is read as an
    instance without entries; nothing is thrown. *)
Lemma LoadXml_absent_groups (e : Node) (this : KeyInfoX509Data) :
  is_X509Data e = true ->
  (forall c, In c (children e) ->
     is_element XmlSignature.ElementNames.X509IssuerSerial
       XmlSignature.NamespaceURI c = false
     /\ is_element XmlSignature.ElementNames.X509SKI
          XmlSignature.NamespaceURI c = false
     /\ is_element XmlSignature.ElementNames.X509SubjectName
          XmlSignature.NamespaceURI c = false
     /\ is_element XmlSignature.ElementNames.X509Certificate
          XmlSignature.NamespaceURI c = false
     /\ is_element XmlSignature.ElementNames.X509CRL
          XmlSignature.NamespaceURI c = false) ->
  LoadXml e this = (LoadXml_cleared e this, Normal tt).
Proof.
  intros He Hc. rewrite LoadXml_clears by exact He.
  assert (F : forall n,
             (forall c, In c (children e) ->
                is_element n XmlSignature.NamespaceURI c = false) ->
             filter (is_element n XmlSignature.NamespaceURI) (children e) = []).
  { intros n Hn. apply filter_nil. exact Hn. }
  assert (G : find (is_element XmlSignature.ElementNames.X509CRL
                      XmlSignature.NamespaceURI) (children e) = None).
  { destruct (find _ (children e)) as [c|] eqn:E; [|reflexivity].
    apply find_some in E. destruct E as [Hin E].
    destruct (Hc c Hin) as (_ & _ & _ & _ & H). congruence. }
  set (s := LoadXml_cleared e this).
  assert (Es : element s = Some e) by reflexivity.
  unfold LoadXml_children.
  do 4 (rewrite (bind_Normal _ _ _ _ _ (GetChildren_Normal _ s e Es)),
          F by (intros c Hin; apply Hc, Hin);
        cbn [for_of]; rewrite (bind_Normal _ _ s s tt) by reflexivity).
  rewrite (bind_Normal _ _ _ _ _ (GetChild_false _ s e Es)), G. reflexivity.
Qed.

(** An [X509IssuerSerial] group whose two children are there, one of them
    without text, is skipped. *)
Lemma LoadXml_IssuerSerial_without_text (xel issuer serial : Node)
    (this : KeyInfoX509Data) :
  static_GetChild xel XmlSignature.ElementNames.X509IssuerName
    XmlSignature.NamespaceURI true = Normal (Some issuer) ->
  static_GetChild xel XmlSignature.ElementNames.X509SerialNumber
    XmlSignature.NamespaceURI true = Normal (Some serial) ->
  truthy (textContent issuer) && truthy (textContent serial) = false ->
  LoadXml_IssuerSerial xel this = (this, Normal tt).
Proof.
  intros Hi Hs Ht. unfold LoadXml_IssuerSerial, bind, lift.
  rewrite Hi, Hs, Ht. reflexivity.
Qed.

(** An [X509IssuerSerial] group that lacks one of its two children makes
    the lookup of that child throw. *)
Lemma LoadXml_IssuerSerial_without_child (xel : Node) (this : KeyInfoX509Data) :
  find (is_element XmlSignature.ElementNames.X509IssuerName
          XmlSignature.NamespaceURI) (children xel) = None
  \/ find (is_element XmlSignature.ElementNames.X509SerialNumber
             XmlSignature.NamespaceURI) (children xel) = None ->
  exists n, LoadXml_IssuerSerial xel this
            = (this, Throw (XmlError ELEMENT_MISSING n)).
Proof.
  intros H. unfold LoadXml_IssuerSerial, bind, lift, static_GetChild.
  destruct (find (is_element XmlSignature.ElementNames.X509IssuerName
                    XmlSignature.NamespaceURI) (children xel)) as [i|].
  - destruct H as [H|H]; [discriminate H|]. rewrite H. eauto.
  - eauto.
Qed.


(** ** Populated instances *)

Lemma AddIssuerSerial_Some (this : KeyInfoX509Data) (i : jsstring)
    (sn : option jsstring) :
  AddIssuerSerial (Some i) sn this
    = (set_IssuerSerialList
         (Some (list_of (IssuerSerialList this)
                  ++ [{| issuerName := i; serialNumber := sn |}]))
         this,
       Normal tt).
Proof.
  destruct this as [e p crl isl skl snl certs k]. destruct isl; reflexivity.
Qed.

Lemma AddSubjectName_Normal (this : KeyInfoX509Data) (n : jsstring) :
  AddSubjectName n this
    = (set_SubjectNameList (Some (list_of (SubjectNameList this) ++ [n])) this,
       Normal tt).
Proof.
  destruct this as [e p crl isl skl snl certs k]. destruct snl; reflexivity.
Qed.

Lemma AddCertificate_Some (this : KeyInfoX509Data) (c : X509Certificate) :
  AddCertificate (Some c) this
    = (set_X509CertificateList
         (Some (list_of (X509CertificateList this) ++ [c])) this,
       Normal tt).
Proof.
  destruct this as [e p crl isl skl snl certs k]. destruct certs; reflexivity.
Qed.

Lemma app_one_not_nil {A} (l : list A) (x : A) : Some (l ++ [x]) <> Some [].
Proof. destruct l; discriminate. Qed.

Lemma lazily_allocated_new : lazily_allocated new_KeyInfoX509Data.
Proof.
  repeat split; try discriminate. exists []. split; [reflexivity|simpl; lia].
Qed.

Lemma lazily_allocated_call (c : Call) (this this' : KeyInfoX509Data) :
  lazily_allocated this -> call c this = (this', Normal tt) ->
  lazily_allocated this'.
Proof.
  intros (Hi & Hn & Hc & l & Hs & Hl) H.
  destruct c as [[c|]|[i|] sn|v|n|v]; unfold call in H.
  - rewrite AddCertificate_Some in H. injection H as <-.
    repeat split; try assumption; [apply app_one_not_nil|eauto].
  - discriminate H.
  - rewrite AddIssuerSerial_Some in H. injection H as <-.
    repeat split; try assumption; [apply app_one_not_nil|eauto].
  - discriminate H.
  - assert (Hv : exists b, this' = set_SubjectKeyIdList (Some [b]) this).
    { destruct this as [e p crl isl skl snl certs k]. simpl in Hs. subst skl.
      destruct v as [t|b]; cbn in H.
      - unfold AddSubjectKeyId, bind, gets, when, modify in H. cbn in H.
        destruct (Convert.FromBase64 t) as [b|]; cbn in H; [|discriminate H].
        injection H as <-. exists b. reflexivity.
      - injection H as <-. exists b. reflexivity. }
    destruct Hv as [b ->].
    repeat split; try assumption. exists [b]. split; [reflexivity|simpl; lia].
  - rewrite AddSubjectName_Normal in H. injection H as <-.
    repeat split; try assumption; [apply app_one_not_nil|eauto].
  - injection H as <-. repeat split; try assumption. eauto.
Qed.

Lemma populated_lazily_allocated (this : KeyInfoX509Data) :
  populated this -> lazily_allocated this.
Proof.
  induction 1 as [|c this this' _ IH H].
  - apply lazily_allocated_new.
  - exact (lazily_allocated_call c this this' IH H).
Qed.

(** ** Reading back the element GetXml builds *)

Lemma textContent_text_nodes ns p n (s : jsstring) :
  textContent (Element ns p n (text_nodes (Some s))) = s.
Proof. destruct s; simpl; [reflexivity|now rewrite app_nil_r]. Qed.

Lemma truthy_nonempty (s : jsstring) : truthy s = nonempty s.
Proof. reflexivity. Qed.

Lemma filter_map_all {A} (f : A -> Node) (g : Node -> bool) (l : list A) :
  (forall x, g (f x) = true) -> filter g (map f l) = map f l.
Proof.
  intros H. induction l as [|x l IH]; simpl; [reflexivity|].
  now rewrite H, IH.
Qed.

Lemma filter_map_none {A} (f : A -> Node) (g : Node -> bool) (l : list A) :
  (forall x, g (f x) = false) -> filter g (map f l) = [].
Proof.
  intros H. apply filter_nil. intros y Hy. apply in_map_iff in Hy.
  destruct Hy as (x & <- & _). apply H.
Qed.

Lemma find_app_none {A} (g : A -> bool) (l1 l2 : list A) :
  filter g l1 = [] -> find g (l1 ++ l2) = find g l2.
Proof.
  induction l1 as [|x l1 IH]; simpl; [reflexivity|].
  destruct (g x); [discriminate|exact IH].
Qed.

Lemma jsstring_eqb_true (a b : jsstring) : jsstring_eqb a b = true -> a = b.
Proof.
  unfold jsstring_eqb. destruct (list_eq_dec N.eq_dec a b); congruence.
Qed.

Ltac by_name Hcrl :=
  rewrite !filter_app;
  repeat first [ rewrite filter_map_all by (intros ?; reflexivity)
               | rewrite filter_map_none by (intros ?; reflexivity) ];
  rewrite Hcrl by discriminate;
  cbn [app]; rewrite ?app_nil_r; reflexivity.

(** The children of each kind that [LoadXml] finds in the element
    [GetXml] has built. *)
Lemma GetXml_children_by_name (this : KeyInfoX509Data) :
  let kids := children (GetXml this) in
  let p := prefix this in
  filter (is_element XmlSignature.ElementNames.X509IssuerSerial
            XmlSignature.NamespaceURI) kids
    = map (IssuerSerial_xml p) (list_of (IssuerSerialList this))
  /\ filter (is_element XmlSignature.ElementNames.X509SKI
               XmlSignature.NamespaceURI) kids
     = map (SKI_xml p) (list_of (SubjectKeyIdList this))
  /\ filter (is_element XmlSignature.ElementNames.X509SubjectName
               XmlSignature.NamespaceURI) kids
     = map (SubjectName_xml p) (list_of (SubjectNameList this))
  /\ filter (is_element XmlSignature.ElementNames.X509Certificate
               XmlSignature.NamespaceURI) kids
     = map (Certificate_xml p) (list_of (X509CertificateList this))
  /\ find (is_element XmlSignature.ElementNames.X509CRL
             XmlSignature.NamespaceURI) kids
     = option_map (CRL_xml p) (x509crl this).
Proof.
  intros kids p. subst kids p. rewrite GetXml_Element. cbn [children].
  assert (Hcrl : forall n,
             n <> XmlSignature.ElementNames.X509CRL ->
             filter (is_element n XmlSignature.NamespaceURI)
               (crl_children (prefix this) (x509crl this)) = []).
  { intros n Hn. destruct (x509crl this) as [crl|]; [|reflexivity].
    unfold crl_children, CRL_xml, createElementNS, set_textContent, filter,
      is_element.
    destruct (jsstring_eqb XmlSignature.ElementNames.X509CRL n) eqn:E;
      [|reflexivity].
    apply jsstring_eqb_true in E. congruence. }
  repeat split.
  - by_name Hcrl.
  - by_name Hcrl.
  - by_name Hcrl.
  - by_name Hcrl.
  - rewrite !find_app_none by (apply filter_map_none; intros x; reflexivity).
    destruct (x509crl this); reflexivity.
Qed.

(** A loop whose body pushes one entry per child onto one list. *)
Section PushLoop.

Context {A : Type}.
Variable get : KeyInfoX509Data -> option (list A).
Variable set : option (list A) -> KeyInfoX509Data -> KeyInfoX509Data.
Hypothesis get_set : forall v s, get (set v s) = v.
Hypothesis set_set : forall v w s, set v (set w s) = set v s.
Hypothesis set_get : forall s, set (get s) s = s.
Variable xml : A -> Node.
Variable body : Node -> M unit.

Lemma for_of_push (l : list A) :
  (forall x, In x l -> forall s,
      body (xml x) s = (set (Some (list_of (get s) ++ [x])) s, Normal tt)) ->
  forall s, for_of (map xml l) body s = (set (filled (get s) l) s, Normal tt).
Proof.
  induction l as [|x l IH]; intros H s; cbn [for_of map filled].
  - unfold ret. now rewrite set_get.
  - rewrite (bind_Normal _ _ _ _ _ (H x (or_introl eq_refl) s)).
    rewrite IH by (intros y Hy; apply H; now right).
    rewrite get_set, set_set. do 2 f_equal.
    destruct l as [|y l]; cbn [filled list_of]; [reflexivity|].
    now rewrite <- app_assoc.
Qed.

End PushLoop.

Lemma LoadXml_IssuerSerial_xml (p : jsstring) (x : X509IssuerSerial)
    (s : KeyInfoX509Data) :
  IssuerSerial_written x = true ->
  LoadXml_IssuerSerial (IssuerSerial_xml p x) s
    = (set_IssuerSerialList (Some (list_of (IssuerSerialList s) ++ [x])) s,
       Normal tt).
Proof.
  destruct x as [i [sn|]]; unfold IssuerSerial_written; cbn [issuerName serialNumber];
    intros H; apply andb_true_iff in H; destruct H as [Hi Hsn];
    [|discriminate Hsn].
  unfold LoadXml_IssuerSerial.
  rewrite (bind_Normal _ _ s s
             (Some (Element XmlSignature.NamespaceURI p
                      XmlSignature.ElementNames.X509IssuerName
                      (text_nodes (Some i))))) by reflexivity.
  rewrite (bind_Normal _ _ s s
             (Some (Element XmlSignature.NamespaceURI p
                      XmlSignature.ElementNames.X509SerialNumber
                      (text_nodes (Some sn))))) by reflexivity.
  cbv beta iota. rewrite !textContent_text_nodes.
  change truthy with (@nonempty N). rewrite Hi, Hsn.
  cbn [andb when]. apply AddIssuerSerial_Some.
Qed.

Lemma LoadXml_SubjectName_xml (p n : jsstring) (s : KeyInfoX509Data) :
  nonempty n = true ->
  when (truthy (textContent (SubjectName_xml p n)))
    (AddSubjectName (textContent (SubjectName_xml p n))) s
    = (set_SubjectNameList (Some (list_of (SubjectNameList s) ++ [n])) s,
       Normal tt).
Proof.
  intros H. unfold SubjectName_xml, createElementNS, set_textContent.
  rewrite !textContent_text_nodes. change truthy with (@nonempty N).
  rewrite H. cbn [when]. apply AddSubjectName_Normal.
Qed.

Lemma FromBase64_call_ToBase64 (b : bytes) (s : KeyInfoX509Data) :
  FromBase64_call (Convert.ToBase64 b) s = (s, Normal b).
Proof. unfold FromBase64_call. now rewrite FromBase64_ToBase64. Qed.

Lemma LoadXml_Certificate_xml (p : jsstring) (c : X509Certificate)
    (s : KeyInfoX509Data) :
  nonempty (GetRawCertData c) = true ->
  when (truthy (textContent (Certificate_xml p c)))
    (cert <- FromBase64_call (textContent (Certificate_xml p c)) ;;
     AddCertificate (Some (new_X509Certificate cert))) s
    = (set_X509CertificateList
         (Some (list_of (X509CertificateList s) ++ [c])) s,
       Normal tt).
Proof.
  intros H. unfold Certificate_xml, createElementNS, set_textContent.
  rewrite !textContent_text_nodes, truthy_ToBase64, H. cbn [when].
  rewrite (bind_Normal _ _ _ _ _ (FromBase64_call_ToBase64 _ s)).
  destruct c as [raw]. apply AddCertificate_Some.
Qed.

Lemma AddSubjectKeyId_SkiBytes (s : KeyInfoX509Data) (l : list bytes)
    (b : bytes) :
  SubjectKeyIdList s = Some l ->
  AddSubjectKeyId (SkiBytes b) s
    = (set_SubjectKeyIdList (Some [b]) s, Normal tt).
Proof.
  intros H. destruct s as [e p crl isl skl snl certs k].
  simpl in H. subst skl. reflexivity.
Qed.

Lemma LoadXml_SKI_xml (p : jsstring) (b : bytes) (s : KeyInfoX509Data)
    (l : list bytes) :
  nonempty b = true -> SubjectKeyIdList s = Some l ->
  when (truthy (textContent (SKI_xml p b)))
    (skid <- FromBase64_call (textContent (SKI_xml p b)) ;;
     AddSubjectKeyId (SkiBytes skid)) s
    = (set_SubjectKeyIdList (Some [b]) s, Normal tt).
Proof.
  intros H Hs. unfold SKI_xml, createElementNS, set_textContent.
  rewrite !textContent_text_nodes, truthy_ToBase64, H. cbn [when].
  rewrite (bind_Normal _ _ _ _ _ (FromBase64_call_ToBase64 _ s)).
  exact (AddSubjectKeyId_SkiBytes s l b Hs).
Qed.

Lemma LoadXml_CRL_xml (p : jsstring) (crl : bytes) (s : KeyInfoX509Data) :
  nonempty crl = true ->
  when (truthy (textContent (CRL_xml p crl)))
    (crl' <- FromBase64_call (textContent (CRL_xml p crl)) ;;
     modify (set_x509crl (Some crl'))) s
    = (set_x509crl (Some crl) s, Normal tt).
Proof.
  intros H. unfold CRL_xml, createElementNS, set_textContent.
  rewrite !textContent_text_nodes, truthy_ToBase64, H. cbn [when].
  rewrite (bind_Normal _ _ _ _ _ (FromBase64_call_ToBase64 _ s)).
  reflexivity.
Qed.

Lemma is_X509Data_GetXml (this : KeyInfoX509Data) :
  is_X509Data (GetXml this) = true.
Proof. rewrite GetXml_Element. reflexivity. Qed.

(** Read back on a new instance, the element [GetXml] has built for an
    instance of the populated shape, all of whose entries are written with
    text, gives the fields of that instance. *)
Lemma LoadXml_GetXml (this : KeyInfoX509Data) :
  lazily_allocated this -> all_written this = true ->
  LoadXml (GetXml this) new_KeyInfoX509Data = (read_back this, Normal tt).
Proof.
  intros (Hi & Hn & Hc & l & Hs & Hl) Hw.
  unfold all_written in Hw. rewrite !andb_true_iff in Hw.
  destruct Hw as ((((Wi & Ws) & Wn) & Wc) & Wcrl).
  rewrite LoadXml_clears by apply is_X509Data_GetXml.
  destruct (GetXml_children_by_name this) as (Fi & Fs & Fn & Fc & Fcrl).
  cbv zeta in Fi, Fs, Fn, Fc, Fcrl.
  unfold read_back. set (e := GetXml this) in *.
  assert (Ep : prefix (LoadXml_cleared e new_KeyInfoX509Data) = prefix this).
  { subst e. rewrite GetXml_Element. reflexivity. }
  unfold LoadXml_children.
  (* <X509IssuerSerial> *)
  set (s0 := LoadXml_cleared e new_KeyInfoX509Data).
  rewrite (bind_Normal _ _ _ _ _ (GetChildren_Normal _ s0 e eq_refl)), Fi.
  rewrite (bind_Normal _ _ _ _ _
             (for_of_push IssuerSerialList set_IssuerSerialList
                ltac:(intros v [? ? ? ? ? ? ? ?]; reflexivity)
                ltac:(intros v w [? ? ? ? ? ? ? ?]; reflexivity)
                ltac:(intros [? ? ? ? ? ? ? ?]; reflexivity)
                _ _ _
                (fun x Hx s => LoadXml_IssuerSerial_xml _ x s
                   (proj1 (forallb_forall _ _) Wi x Hx)) s0)).
  set (s1 := set_IssuerSerialList _ s0).
  (* <X509SKI> *)
  rewrite (bind_Normal _ _ _ _ _ (GetChildren_Normal _ s1 e eq_refl)), Fs.
  assert (S2 : exists s2,
             for_of (map (SKI_xml (prefix this))
                       (list_of (SubjectKeyIdList this)))
               (fun xel =>
                  when (truthy (textContent xel))
                    (skid <- FromBase64_call (textContent xel) ;;
                     AddSubjectKeyId (SkiBytes skid))) s1 = (s2, Normal tt)
             /\ s2 = set_SubjectKeyIdList (SubjectKeyIdList this) s1).
  { rewrite Hs in *. cbn [list_of] in *.
    destruct l as [|b [|b' l]]; [| |simpl in Hl; lia].
    - eexists. split; reflexivity.
    - cbn [forallb] in Ws. rewrite andb_true_r in Ws. cbn [map for_of].
      rewrite (bind_Normal _ _ _ _ _
                 (LoadXml_SKI_xml _ b s1 [] Ws eq_refl)).
      eexists. split; reflexivity. }
  destruct S2 as (s2 & E & E2). rewrite (bind_Normal _ _ _ _ _ E). clear E.
  (* <X509SubjectName> *)
  rewrite (bind_Normal _ _ _ _ _
             (GetChildren_Normal _ s2 e ltac:(subst s2; reflexivity))), Fn.
  rewrite (bind_Normal _ _ _ _ _
             (for_of_push SubjectNameList set_SubjectNameList
                ltac:(intros v [? ? ? ? ? ? ? ?]; reflexivity)
                ltac:(intros v w [? ? ? ? ? ? ? ?]; reflexivity)
                ltac:(intros [? ? ? ? ? ? ? ?]; reflexivity)
                _ _ _
                (fun x Hx s => LoadXml_SubjectName_xml _ x s
                   (proj1 (forallb_forall _ _) Wn x Hx)) s2)).
  set (s3 := set_SubjectNameList _ s2).
  (* <X509Certificate> *)
  rewrite (bind_Normal _ _ _ _ _
             (GetChildren_Normal _ s3 e ltac:(subst s3 s2; reflexivity))), Fc.
  rewrite (bind_Normal _ _ _ _ _
             (for_of_push X509CertificateList set_X509CertificateList
                ltac:(intros v [? ? ? ? ? ? ? ?]; reflexivity)
                ltac:(intros v w [? ? ? ? ? ? ? ?]; reflexivity)
                ltac:(intros [? ? ? ? ? ? ? ?]; reflexivity)
                _ _ _
                (fun x Hx s => LoadXml_Certificate_xml _ x s
                   (proj1 (forallb_forall _ _) Wc x Hx)) s3)).
  set (s4 := set_X509CertificateList _ s3).
  (* only one <X509CRL> *)
  rewrite (bind_Normal _ _ _ _ _
             (GetChild_false _ s4 e ltac:(subst s4 s3 s2; reflexivity))), Fcrl.
  assert (F : forall {A} (o : option (list A)),
             o <> Some [] -> filled None (list_of o) = o).
  { intros A [[|x o]|] H; try reflexivity. congruence. }
  destruct (x509crl this) as [crl|] eqn:Ecrl; cbn [option_map].
  - rewrite LoadXml_CRL_xml by exact Wcrl.
    subst s4 s3 s2 s1 s0. cbn. rewrite !F by assumption. rewrite <- Ep.
    reflexivity.
  - subst s4 s3 s2 s1 s0. cbn. rewrite !F by assumption. rewrite <- Ep.
    reflexivity.
Qed.

Lemma populated_step (c : Call) (this : KeyInfoX509Data) :
  populated this -> snd (call c this) = Normal tt ->
  populated (fst (call c this)).
Proof.
  intros H E. apply (populated_call c this); [exact H|].
  destruct (call c this) as [this' r]. simpl in E. now subst r.
Qed.

(** C1, as the code has it: for an instance populated by [Add*] calls and
    the CRL setter, all of whose stored entries are written with text (no
    empty name, no absent or empty serial number, no empty byte array),
    [LoadXml] of the element [GetXml] builds returns on a new instance and
    leaves certificates, issuer-serial pairs, subject key ids, subject names
    and CRL equal to the stored ones, each list in its order. *)
Theorem C1_round_trip_of_written_entries :
  forall this : KeyInfoX509Data,
    populated this -> all_written this = true ->
    exists this',
      LoadXml (GetXml this) new_KeyInfoX509Data = (this', Normal tt)
      /\ Certificates this' = Certificates this
      /\ IssuerSerials this' = IssuerSerials this
      /\ SubjectKeyIds this' = SubjectKeyIds this
      /\ SubjectNames this' = SubjectNames this
      /\ CRL this' = CRL this.
Proof.
  intros this Hp Hw. exists (read_back this). split.
  - apply LoadXml_GetXml; [apply populated_lazily_allocated, Hp|exact Hw].
  - repeat split.
Qed.

(** C1, witness: the sample instance, populated by interleaved calls. *)
Lemma C1_round_trip_witness :
  populated sample_instance /\ all_written sample_instance = true
  /\ exists this',
      LoadXml (GetXml sample_instance) new_KeyInfoX509Data = (this', Normal tt)
      /\ Certificates this' = Certificates sample_instance
      /\ IssuerSerials this' = IssuerSerials sample_instance
      /\ SubjectKeyIds this' = SubjectKeyIds sample_instance
      /\ SubjectNames this' = SubjectNames sample_instance
      /\ CRL this' = CRL sample_instance.
Proof.
  assert (P : populated sample_instance).
  { unfold sample_instance.
    repeat (apply populated_step; [|reflexivity]). apply populated_new. }
  split; [exact P|]. split; [reflexivity|].
  apply (C1_round_trip_of_written_entries sample_instance).
  - exact P.
  - reflexivity.
Defined.

(** C1, counterexample: an instance whose one subject name is the empty
    string is written as an [X509SubjectName] without text, which
    [LoadXml] skips: the subject names read back are not the stored ones. *)
Lemma C1_counterexample_empty_subject_name :
  populated instance_with_empty_name
  /\ SubjectNames instance_with_empty_name = Some [[]]
  /\ child_names (GetXml instance_with_empty_name)
     = [XmlSignature.ElementNames.X509SubjectName]
  /\ snd (LoadXml (GetXml instance_with_empty_name) new_KeyInfoX509Data)
     = Normal tt
  /\ SubjectNames
       (fst (LoadXml (GetXml instance_with_empty_name) new_KeyInfoX509Data))
     = None
  /\ SubjectNames
       (fst (LoadXml (GetXml instance_with_empty_name) new_KeyInfoX509Data))
     <> SubjectNames instance_with_empty_name.
Proof.
  split.
  - unfold instance_with_empty_name.
    apply populated_step; [apply populated_new|reflexivity].
  - repeat (split; [reflexivity|]). discriminate.
Qed.

(** * Further properties *)

(** ** The two encodings of a signed text *)

Lemma byte_of_N_inj_small (a b : N) :
  a < 256 -> b < 256 -> byte_of_N a = byte_of_N b -> a = b.
Proof.
  intros Ha Hb H. unfold byte_of_N in H.
  rewrite !N.mod_small in H by assumption.
  destruct (Byte.of_N a) as [x|] eqn:Ea;
    [|apply Byte.of_N_None_iff in Ea; lia].
  destruct (Byte.of_N b) as [y|] eqn:Eb;
    [|apply Byte.of_N_None_iff in Eb; lia].
  subst y. apply Byte.to_of_N in Ea, Eb. congruence.
Qed.

Lemma utf8_of_code_point_length (cp : N) :
  (1 <= List.length (Convert.utf8_of_code_point cp))%nat
  /\ (128 <= cp -> (2 <= List.length (Convert.utf8_of_code_point cp))%nat)
  /\ (65536 <= cp -> List.length (Convert.utf8_of_code_point cp) = 4%nat).
Proof.
  unfold Convert.utf8_of_code_point.
  destruct (N.ltb_spec cp 128); [|destruct (N.ltb_spec cp 2048);
    [|destruct (N.ltb_spec cp 65536)]]; simpl; repeat split; intros; lia.
Qed.

Lemma FromUtf8String_ascii (s : jsstring) :
  is_ascii s = true -> Convert.FromUtf8String s = Convert.FromBinary s.
Proof.
  induction s as [|c s IH]; intros H; [reflexivity|].
  simpl in H. apply andb_true_iff in H. destruct H as [Hc Hs].
  apply N.ltb_lt in Hc. cbn [Convert.FromUtf8String Convert.FromBinary map].
  unfold Convert.is_high_surrogate, Convert.is_low_surrogate.
  replace (55296 <=? c) with false by (symmetry; apply N.leb_gt; lia).
  replace (56320 <=? c) with false by (symmetry; apply N.leb_gt; lia).
  cbn [andb]. unfold Convert.utf8_of_code_point.
  replace (c <? 128) with true by (symmetry; apply N.ltb_lt; lia).
  cbn [app]. f_equal. apply IH, Hs.
Qed.

Lemma FromUtf8String_length (n : nat) :
  forall s : jsstring,
    (List.length s <= n)%nat ->
    (List.length s <= List.length (Convert.FromUtf8String s))%nat
    /\ (is_ascii s = false ->
        (List.length s < List.length (Convert.FromUtf8String s))%nat).
Proof.
  induction n as [|n IH]; intros s Hn.
  - destruct s; [|cbn [List.length] in Hn; lia].
    split; [cbn [List.length]; lia|discriminate].
  - destruct s as [|c t]; [split; [cbn [List.length]; lia|discriminate]|].
    cbn [List.length] in Hn. assert (Ht : (List.length t <= n)%nat) by lia.
    destruct (IH t Ht) as [Lt Lt'].
    pose proof (utf8_of_code_point_length Convert.replacement) as (R1 & R2 & _).
    specialize (R2 ltac:(unfold Convert.replacement; lia)).
    cbn [Convert.FromUtf8String is_ascii forallb].
    destruct (Convert.is_high_surrogate c) eqn:Hh.
    + assert (Hc : (c <? 128) = false).
      { unfold Convert.is_high_surrogate in Hh. apply andb_true_iff in Hh.
        destruct Hh as [Hh _]. apply N.leb_le in Hh. apply N.ltb_ge. lia. }
      rewrite Hc. cbn [andb]. destruct t as [|d t'].
      * cbn [List.length]. split; intros; lia.
      * destruct (Convert.is_low_surrogate d) eqn:Hl.
        -- assert (Ht' : (List.length t' <= n)%nat)
             by (cbn [List.length] in Ht; lia).
           destruct (IH t' Ht') as [Lt'' _].
           pose proof (utf8_of_code_point_length
                         (65536 + (c - 55296) * 1024 + (d - 56320)))
             as (_ & _ & P4).
           specialize (P4 ltac:(lia)).
           rewrite length_app, P4. cbn [List.length]. split; intros; lia.
        -- rewrite length_app. cbn [List.length] in Lt |- *.
           split; intros; lia.
    + destruct (Convert.is_low_surrogate c) eqn:Hl.
      * assert (Hc : (c <? 128) = false).
        { unfold Convert.is_low_surrogate in Hl. apply andb_true_iff in Hl.
          destruct Hl as [Hl _]. apply N.leb_le in Hl. apply N.ltb_ge. lia. }
        rewrite Hc. cbn [andb]. rewrite length_app. cbn [List.length].
        split; intros; lia.
      * pose proof (utf8_of_code_point_length c) as (P1 & P2 & _).
        rewrite length_app. cbn [List.length].
        destruct (N.ltb_spec c 128) as [Hc|Hc]; cbn [andb].
        -- split; [lia|]. intros Hf. specialize (Lt' Hf). lia.
        -- specialize (P2 Hc). split; intros; lia.
Qed.

Lemma FromString_encodings_agree_iff (s : jsstring) :
  Convert.FromString s Convert.utf8 = Convert.FromString s Convert.binary
  <-> is_ascii s = true.
Proof.
  split.
  - intros H. destruct (is_ascii s) eqn:E; [reflexivity|].
    destruct (FromUtf8String_length (List.length s) s (le_n _)) as [_ L].
    specialize (L E). apply (f_equal (@List.length byte)) in H.
    cbn [Convert.FromString] in H. unfold Convert.FromBinary in H.
    rewrite length_map in H. lia.
  - apply FromUtf8String_ascii.
Qed.

(** X1: for a signed text of ASCII characters [verifySignature] hands the
    provider the octets that [getSignature] signs, so what the provider
    answers is its answer for the signed octets. *)
Theorem verifySignature_ascii_octets :
  forall (crypto : SubtleCrypto) (this : XmlAlgorithm) (signedInfo : jsstring)
         (key : CryptoKey) (signatureValue : jsstring) (alg : Algorithm),
    is_ascii signedInfo = true ->
    verifySignature crypto this signedInfo key signatureValue (Some alg)
      = verify crypto alg key
          (Convert.FromString signatureValue Convert.binary)
          (Convert.FromString signedInfo Convert.binary)
    /\ getSignature crypto this signedInfo key alg
       = sign crypto alg key (Convert.FromString signedInfo Convert.binary).
Proof.
  intros crypto this si key sv alg H. split; [|reflexivity].
  unfold verifySignature. now rewrite (proj2 (FromString_encodings_agree_iff si) H).
Qed.

Lemma verifySignature_ascii_octets_witness :
  is_ascii (js "<SignedInfo/>") = true
  /\ verifySignature echo_crypto sample_XmlAlgorithm (js "<SignedInfo/>")
       sample_key (js "sig") (Some sample_alg)
     = verify echo_crypto sample_alg sample_key
         (Convert.FromString (js "sig") Convert.binary)
         (Convert.FromString (js "<SignedInfo/>") Convert.binary).
Proof.
  split; [reflexivity|].
  apply (verifySignature_ascii_octets echo_crypto sample_XmlAlgorithm
           (js "<SignedInfo/>") sample_key (js "sig") sample_alg).
  reflexivity.
Defined.

Lemma bytes_eqb_true_iff (a b : bytes) : bytes_eqb a b = true <-> a = b.
Proof.
  unfold bytes_eqb. destruct (list_eq_dec Byte.byte_eq_dec a b);
    split; congruence.
Qed.

(** X2: with the transparent provider, whose signature of a message is the
    message, the signature [getSignature] makes of a text is accepted by
    [verifySignature] for the same text exactly when the text is ASCII. *)
Theorem sign_then_verify_iff_ascii :
  forall (this : XmlAlgorithm) (signedInfo : jsstring) (key : CryptoKey)
         (alg : option Algorithm) (a : Algorithm),
    getSignature echo_crypto this signedInfo key a
      = Fulfilled (Convert.FromString signedInfo Convert.binary)
    /\ verifySignature echo_crypto this signedInfo key signedInfo alg
       = Fulfilled (is_ascii signedInfo).
Proof.
  intros this si key alg a. split; [reflexivity|].
  unfold verifySignature, echo_crypto. cbn [verify]. f_equal.
  destruct (is_ascii si) eqn:E.
  - apply bytes_eqb_true_iff. symmetry.
    apply FromString_encodings_agree_iff, E.
  - destruct (bytes_eqb _ _) eqn:B; [|reflexivity].
    apply bytes_eqb_true_iff in B. symmetry in B.
    apply FromString_encodings_agree_iff in B. congruence.
Qed.

(** ** The constructor *)

(** X3: the constructor with raw certificate bytes, whatever the include
    option, and with a certificate object under [None] or [EndCertOnly],
    gives an instance that holds this one certificate and nothing else;
    under [ExcludeRoot] and [WholeChain] it throws
    [METHOD_NOT_IMPLEMENTED]. *)
Theorem constructor_outcomes :
  forall (rgbCert : bytes) (cert : X509Certificate)
         (includeOptions : X509IncludeOption),
    constructor (Some (RawCert rgbCert)) includeOptions init
      = (set_X509CertificateList (Some [new_X509Certificate rgbCert]) init,
         Normal tt)
    /\ constructor (Some (CertObject cert)) includeOptions init
       = match includeOptions with
         | None_ | EndCertOnly =>
             (set_X509CertificateList (Some [cert]) init, Normal tt)
         | ExcludeRoot | WholeChain =>
             (init, Throw (XmlError METHOD_NOT_IMPLEMENTED []))
         end.
Proof. intros rgbCert cert [| | |]; split; reflexivity. Qed.

(** ** AddSubjectKeyId: text and bytes *)

(** X4: [AddSubjectKeyId] with the base64 text of a byte array does what
    [AddSubjectKeyId] with the byte array does. *)
Theorem AddSubjectKeyId_text_as_bytes :
  forall (b : bytes) (this : KeyInfoX509Data),
    AddSubjectKeyId (SkiString (Convert.ToBase64 b)) this
      = AddSubjectKeyId (SkiBytes b) this.
Proof.
  intros b this. unfold AddSubjectKeyId. now rewrite FromBase64_ToBase64.
Qed.

(** ** Properties that every method keeps *)

Lemma preserves_ret {A} P (a : A) : preserves P (ret a).
Proof. intros s H. exact H. Qed.

Lemma preserves_throw {A} P (e : JsError) : preserves P (@throw A e).
Proof. intros s H. exact H. Qed.

Lemma preserves_lift {A} P (c : Completion A) : preserves P (lift c).
Proof. intros s H. exact H. Qed.

Lemma preserves_gets {A} P (f : KeyInfoX509Data -> A) : preserves P (gets f).
Proof. intros s H. exact H. Qed.

Lemma preserves_modify P (f : KeyInfoX509Data -> KeyInfoX509Data) :
  (forall s, P s -> P (f s)) -> preserves P (modify f).
Proof. intros H s Hs. apply H, Hs. Qed.

Lemma preserves_bind {A B} P (m : M A) (k : A -> M B) :
  preserves P m -> (forall a, preserves P (k a)) -> preserves P (bind m k).
Proof.
  intros Hm Hk s H. specialize (Hm s H). unfold bind.
  destruct (m s) as [s' [a|e]]; [apply Hk|]; exact Hm.
Qed.

Lemma preserves_when P (c : bool) (body : M unit) :
  preserves P body -> preserves P (when c body).
Proof. intros H. destruct c; [exact H|apply preserves_ret]. Qed.

Lemma preserves_for_of {A} P (l : list A) (body : A -> M unit) :
  (forall x, preserves P (body x)) -> preserves P (for_of l body).
Proof.
  intros H. induction l as [|x l IH]; cbn [for_of].
  - apply preserves_ret.
  - apply preserves_bind; [apply H|intros _; exact IH].
Qed.

Lemma preserves_push {A} P
    (get : KeyInfoX509Data -> option (list A))
    (set : option (list A) -> KeyInfoX509Data -> KeyInfoX509Data) (x : A) :
  (forall v s, P s -> get s <> None -> P (set (Some v) s)) ->
  preserves P (push get set x).
Proof.
  intros H s Hs. unfold push, bind, gets.
  destruct (get s) as [l|] eqn:E; [|exact Hs].
  cbn. apply H; [exact Hs|congruence].
Qed.

(** Every method body is made of reads, writes of one field, pushes and
    the control structures: a property that the writes keep is kept. *)
Ltac preserves_body tac :=
  repeat match goal with
  | |- preserves _ (match ?x with _ => _ end) => destruct x
  | |- preserves _ (ret _) => apply preserves_ret
  | |- preserves _ (throw _) => apply preserves_throw
  | |- preserves _ (lift _) => apply preserves_lift
  | |- preserves _ (gets _) => apply preserves_gets
  | |- preserves _ (for_of _ _) => apply preserves_for_of; intros ?
  | |- preserves _ (when _ _) => apply preserves_when
  | |- preserves _ (modify _) => apply preserves_modify; tac
  | |- preserves _ (push _ _ _) => apply preserves_push; tac
  | |- preserves _ (bind _ _) => apply preserves_bind; [|intros ?]
  end.

Section Preserved.

Variable P : KeyInfoX509Data -> Prop.

(** The property looks at fields that no write of a list or of the CRL,
    of the element or of the prefix changes. *)
Hypothesis P_element : forall v s, P s -> P (set_element v s).
Hypothesis P_prefix : forall v s, P s -> P (set_prefix v s).
Hypothesis P_x509crl : forall v s, P s -> P (set_x509crl v s).
Hypothesis P_IssuerSerialList : forall v s, P s -> P (set_IssuerSerialList v s).
Hypothesis P_SubjectNameList : forall v s, P s -> P (set_SubjectNameList v s).
Hypothesis P_X509CertificateList :
  forall v s, P s -> P (set_X509CertificateList v s).
Hypothesis P_SubjectKeyIdList :
  forall v s,
    P s -> (List.length v <= 1)%nat -> P (set_SubjectKeyIdList (Some v) s).

Lemma preserved_AddSubjectKeyId v : preserves P (AddSubjectKeyId v).
Proof.
  intros s Hs. destruct s as [e p crl isl [skl|] snl certs k].
  - destruct v as [t|b]; unfold AddSubjectKeyId;
      [destruct (Convert.FromBase64 t) as [b|]|]; cbn.
    + exact (P_SubjectKeyIdList [b] _ Hs (le_n 1)).
    + exact (P_SubjectKeyIdList [] _ Hs (le_S _ _ (le_n 0))).
    + exact (P_SubjectKeyIdList [b] _ Hs (le_n 1)).
  - destruct v as [t|b]; unfold AddSubjectKeyId;
      [destruct (Convert.FromBase64 t) as [b|]|]; cbn; exact Hs.
Qed.

Lemma preserved_AddCertificate c : preserves P (AddCertificate c).
Proof. unfold AddCertificate. preserves_body ltac:(auto). Qed.

Lemma preserved_AddIssuerSerial i sn : preserves P (AddIssuerSerial i sn).
Proof. unfold AddIssuerSerial. preserves_body ltac:(auto). Qed.

Lemma preserved_AddSubjectName n : preserves P (AddSubjectName n).
Proof. unfold AddSubjectName. preserves_body ltac:(auto). Qed.

Lemma preserved_call c : preserves P (call c).
Proof.
  destruct c; unfold call.
  - apply preserved_AddCertificate.
  - apply preserved_AddIssuerSerial.
  - apply preserved_AddSubjectKeyId.
  - apply preserved_AddSubjectName.
  - unfold set_CRL. apply preserves_modify. auto.
Qed.

Lemma preserved_constructor cert includeOptions :
  preserves P (constructor cert includeOptions).
Proof.
  destruct cert as [[b|c]|]; unfold constructor.
  - apply preserved_AddCertificate.
  - destruct includeOptions; try apply preserved_AddCertificate;
      apply preserves_throw.
  - apply preserves_ret.
Qed.

Lemma preserved_LoadXml e : preserves P (LoadXml e).
Proof.
  unfold LoadXml, XmlObject_LoadXml, LoadXml_children, LoadXml_IssuerSerial,
    GetChildren, GetChild, FromBase64_call.
  repeat match goal with
  | |- preserves _ (AddIssuerSerial _ _) => apply preserved_AddIssuerSerial
  | |- preserves _ (AddSubjectKeyId _) => apply preserved_AddSubjectKeyId
  | |- preserves _ (AddSubjectName _) => apply preserved_AddSubjectName
  | |- preserves _ (AddCertificate _) => apply preserved_AddCertificate
  | |- preserves _ (match ?x with _ => _ end) => destruct x
  | |- preserves _ (ret _) => apply preserves_ret
  | |- preserves _ (throw _) => apply preserves_throw
  | |- preserves _ (lift _) => apply preserves_lift
  | |- preserves _ (gets _) => apply preserves_gets
  | |- preserves _ (for_of _ _) => apply preserves_for_of; intros ?
  | |- preserves _ (when _ _) => apply preserves_when
  | |- preserves _ (modify _) =>
      apply preserves_modify;
      solve [auto | intros; apply P_SubjectKeyIdList; [assumption|cbn; lia]]
  | |- preserves _ (bind _ _) => apply preserves_bind; [|intros ?]
  end.
Qed.

(** A property of the new instance that every write keeps holds of every
    reachable instance. *)
Lemma preserved_reachable :
  P init -> forall this, reachable this -> P this.
Proof.
  intros H0 this R. induction R as [cert opt this H|c this _ IH|e this _ IH].
  - change this with (fst (this, @Normal unit tt)). rewrite <- H.
    apply preserved_constructor, H0.
  - apply preserved_call, IH.
  - apply preserved_LoadXml, IH.
Qed.

End Preserved.

(** X5: no method writes the key: [Key] is [null] on every reachable
    instance. *)
Theorem reachable_Key_null :
  forall this : KeyInfoX509Data, reachable this -> Key this = None.
Proof.
  apply (preserved_reachable (fun s => Key s = None));
    try (intros; match goal with
                 | s : KeyInfoX509Data |- _ => destruct s
                 end; assumption).
  reflexivity.
Qed.

Lemma reachable_Key_null_witness :
  reachable sample_instance /\ Key sample_instance = None.
Proof.
  assert (R : reachable sample_instance).
  { unfold sample_instance. repeat apply reachable_call.
    apply (reachable_new None None_). reflexivity. }
  split; [exact R|]. apply (reachable_Key_null sample_instance). exact R.
Defined.

(** X6: on every reachable instance the subject-key-id list is allocated
    and holds at most one entry: the constructor allocates it, and every
    [AddSubjectKeyId], also one of a parse, starts it over. *)
Theorem reachable_at_most_one_SubjectKeyId :
  forall this : KeyInfoX509Data,
    reachable this -> at_most_one_SubjectKeyId this.
Proof.
  apply (preserved_reachable at_most_one_SubjectKeyId);
    unfold at_most_one_SubjectKeyId, SubjectKeyIds.
  1-6: intros v s (l & H & L); destruct s; exists l; split; assumption.
  - intros v s _ L. destruct s. exists v. split; [reflexivity|exact L].
  - exists []. split; [reflexivity|cbn; lia].
Qed.

Lemma reachable_at_most_one_SubjectKeyId_witness :
  reachable sample_instance /\ at_most_one_SubjectKeyId sample_instance.
Proof.
  assert (R : reachable sample_instance).
  { unfold sample_instance. repeat apply reachable_call.
    apply (reachable_new None None_). reflexivity. }
  split; [exact R|].
  apply (reachable_at_most_one_SubjectKeyId sample_instance). exact R.
Defined.

(** ** Sequences of Add calls *)

Lemma filled_app {A} (prev : option (list A)) (a b : list A) :
  filled (filled prev a) b = filled prev (a ++ b).
Proof.
  destruct a as [|x a]; [reflexivity|]. cbn [filled list_of app].
  destruct b as [|y b]; cbn [filled list_of].
  - now rewrite app_nil_r.
  - now rewrite <- app_assoc.
Qed.

(** A loop whose body appends some entries to one list and never throws. *)
Section AppendLoop.

Context {A B : Type}.
Variable get : KeyInfoX509Data -> option (list A).
Variable set : option (list A) -> KeyInfoX509Data -> KeyInfoX509Data.
Hypothesis get_set : forall v s, get (set v s) = v.
Hypothesis set_set : forall v w s, set v (set w s) = set v s.
Hypothesis set_get : forall s, set (get s) s = s.
Variable body : B -> M unit.
Variable entries : B -> list A.
Hypothesis body_appends :
  forall x s, body x s = (set (filled (get s) (entries x)) s, Normal tt).

Lemma for_of_appends (l : list B) :
  forall s,
    for_of l body s = (set (filled (get s) (flat_map entries l)) s, Normal tt).
Proof.
  induction l as [|x l IH]; intros s; cbn [for_of flat_map].
  - cbn [filled]. unfold ret. now rewrite set_get.
  - rewrite (bind_Normal _ _ _ _ _ (body_appends x s)), IH.
    now rewrite get_set, set_set, filled_app.
Qed.

End AppendLoop.

Lemma flat_map_singleton {A} (l : list A) : flat_map (fun x => [x]) l = l.
Proof. induction l as [|x l IH]; [reflexivity|]. cbn. now rewrite IH. Qed.

Ltac field_laws :=
  first [ intros ? ? [? ? ? ? ? ? ? ?]; reflexivity
        | intros ? [? ? ? ? ? ? ? ?]; reflexivity
        | intros [? ? ? ? ? ? ? ?]; reflexivity ].

(** X7: subject names, certificates and issuer-serial pairs added one
    after the other are stored after those already there, in the order of
    the calls, and none of the calls throws; a list that is not given any
    entry stays as it is. *)
Theorem Add_sequences :
  forall (this : KeyInfoX509Data) (names : list jsstring)
         (certs : list X509Certificate) (pairs : list X509IssuerSerial),
    for_of names AddSubjectName this
      = (set_SubjectNameList (filled (SubjectNameList this) names) this,
         Normal tt)
    /\ for_of certs (fun c => AddCertificate (Some c)) this
       = (set_X509CertificateList (filled (X509CertificateList this) certs)
            this,
          Normal tt)
    /\ for_of pairs
         (fun x => AddIssuerSerial (Some (issuerName x)) (serialNumber x)) this
       = (set_IssuerSerialList (filled (IssuerSerialList this) pairs) this,
          Normal tt).
Proof.
  intros this names certs pairs. repeat split.
  - rewrite (for_of_appends SubjectNameList set_SubjectNameList
               ltac:(field_laws) ltac:(field_laws) ltac:(field_laws)
               AddSubjectName (fun x => [x])
               (fun x s => AddSubjectName_Normal s x)).
    now rewrite flat_map_singleton.
  - rewrite (for_of_appends X509CertificateList set_X509CertificateList
               ltac:(field_laws) ltac:(field_laws) ltac:(field_laws)
               (fun c => AddCertificate (Some c)) (fun x => [x])
               (fun x s => AddCertificate_Some s x)).
    now rewrite flat_map_singleton.
  - rewrite (for_of_appends IssuerSerialList set_IssuerSerialList
               ltac:(field_laws) ltac:(field_laws) ltac:(field_laws)
               (fun x => AddIssuerSerial (Some (issuerName x)) (serialNumber x))
               (fun x => [x])
               (fun x s => ltac:(destruct x; apply AddIssuerSerial_Some))).
    now rewrite flat_map_singleton.
Qed.

(** X8: calls that add to different collections, or set the CRL, can be
    made in either order: the instance and the outcome are the same. *)
Theorem Add_calls_commute :
  forall (this : KeyInfoX509Data) (n : jsstring) (c : X509Certificate)
         (i : jsstring) (sn : option jsstring) (v : option bytes),
    (AddSubjectName n ;; AddCertificate (Some c)) this
      = (AddCertificate (Some c) ;; AddSubjectName n) this
    /\ (AddSubjectName n ;; AddIssuerSerial (Some i) sn) this
       = (AddIssuerSerial (Some i) sn ;; AddSubjectName n) this
    /\ (AddCertificate (Some c) ;; AddIssuerSerial (Some i) sn) this
       = (AddIssuerSerial (Some i) sn ;; AddCertificate (Some c)) this
    /\ (set_CRL v ;; AddSubjectName n) this
       = (AddSubjectName n ;; set_CRL v) this
    /\ (set_CRL v ;; AddCertificate (Some c)) this
       = (AddCertificate (Some c) ;; set_CRL v) this
    /\ (set_CRL v ;; AddIssuerSerial (Some i) sn) this
       = (AddIssuerSerial (Some i) sn ;; set_CRL v) this.
Proof.
  intros [e p crl [isl|] skl [snl|] [certs|] k] n c i sn v;
    repeat split; reflexivity.
Qed.

(** ** Nothing is removed *)

Lemma call_extends (c : Call) (this : KeyInfoX509Data) :
  exists l1 l2 l3,
    list_of (Certificates (fst (call c this)))
      = list_of (Certificates this) ++ l1
    /\ list_of (IssuerSerials (fst (call c this)))
       = list_of (IssuerSerials this) ++ l2
    /\ list_of (SubjectNames (fst (call c this)))
       = list_of (SubjectNames this) ++ l3.
Proof.
  destruct c as [[c|]|[i|] sn|v|n|v]; unfold call.
  - rewrite AddCertificate_Some. exists [c], [], []. destruct this.
    cbn. now rewrite !app_nil_r.
  - exists [], [], []. cbn. now rewrite !app_nil_r.
  - rewrite AddIssuerSerial_Some.
    exists [], [{| issuerName := i; serialNumber := sn |}], [].
    destruct this. cbn. now rewrite !app_nil_r.
  - exists [], [], []. cbn. now rewrite !app_nil_r.
  - exists [], [], []. rewrite !app_nil_r.
    destruct this as [e p crl isl [skl|] snl certs k];
      (destruct v as [t|b]; unfold AddSubjectKeyId;
       [destruct (Convert.FromBase64 t)|]); repeat split.
  - rewrite AddSubjectName_Normal. exists [], [], [n]. destruct this.
    cbn. now rewrite !app_nil_r.
  - exists [], [], []. destruct this. cbn. now rewrite !app_nil_r.
Qed.

Lemma after_calls_extends (cs : list Call) :
  forall this : KeyInfoX509Data,
    exists l1 l2 l3,
      list_of (Certificates (after_calls cs this))
        = list_of (Certificates this) ++ l1
      /\ list_of (IssuerSerials (after_calls cs this))
         = list_of (IssuerSerials this) ++ l2
      /\ list_of (SubjectNames (after_calls cs this))
         = list_of (SubjectNames this) ++ l3.
Proof.
  induction cs as [|c cs IH]; intros this.
  - exists [], [], []. cbn. now rewrite !app_nil_r.
  - cbn [after_calls fold_left].
    destruct (IH (fst (call c this))) as (a1 & a2 & a3 & H1 & H2 & H3).
    destruct (call_extends c this) as (b1 & b2 & b3 & G1 & G2 & G3).
    exists (b1 ++ a1), (b2 ++ a2), (b3 ++ a3).
    unfold after_calls in H1, H2, H3.
    rewrite H1, H2, H3, G1, G2, G3, !app_assoc. repeat split.
Qed.

(** X9: whatever [Add*] and CRL calls are made on an instance, also calls
    that throw, the certificates, issuer-serial pairs and subject names it
    held stay at the head of their lists, in their order. *)
Theorem calls_never_remove :
  forall (cs : list Call) (this : KeyInfoX509Data),
    exists l1 l2 l3,
      list_of (Certificates (after_calls cs this))
        = list_of (Certificates this) ++ l1
      /\ list_of (IssuerSerials (after_calls cs this))
         = list_of (IssuerSerials this) ++ l2
      /\ list_of (SubjectNames (after_calls cs this))
         = list_of (SubjectNames this) ++ l3.
Proof. intros cs this. apply after_calls_extends. Qed.

(** X10: once an instance has a first certificate, [exportKey] is that
    certificate's key export, whatever [Add*] and CRL calls follow. *)
Theorem exportKey_first_certificate_stays :
  forall (cert_exportKey : X509Certificate -> Algorithm -> Promise CryptoKey)
         (alg : Algorithm) (cs : list Call) (this : KeyInfoX509Data)
         (c : X509Certificate) (l : list X509Certificate),
    Certificates this = Some (c :: l) ->
    exportKey cert_exportKey alg (after_calls cs this) = cert_exportKey c alg.
Proof.
  intros ce alg cs this c l H.
  destruct (after_calls_extends cs this) as (l1 & _ & _ & H1 & _).
  rewrite H in H1. cbn [list_of app] in H1. unfold exportKey.
  destruct (Certificates (after_calls cs this)) as [[|c' l']|];
    cbn [list_of] in H1; try discriminate H1.
  now injection H1 as -> _.
Qed.

Lemma exportKey_first_certificate_stays_witness :
  Certificates (fst (AddCertificate (Some sample_cert) new_KeyInfoX509Data))
    = Some [sample_cert]
  /\ exportKey (fun c _ => Rejected (ProviderError (N.of_nat (List.length (GetRawCertData c))))) sample_alg
       (after_calls
          [CallAddCertificate (Some (new_X509Certificate [x31]));
           CallAddSubjectName (js "CN=a"); CallAddCertificate None]
          (fst (AddCertificate (Some sample_cert) new_KeyInfoX509Data)))
     = Rejected (ProviderError 3).
Proof.
  split; [reflexivity|].
  apply (exportKey_first_certificate_stays
           (fun c _ => Rejected (ProviderError (N.of_nat (List.length (GetRawCertData c))))) sample_alg
           [CallAddCertificate (Some (new_X509Certificate [x31]));
            CallAddSubjectName (js "CN=a"); CallAddCertificate None]
           (fst (AddCertificate (Some sample_cert) new_KeyInfoX509Data))
           sample_cert []).
  reflexivity.
Defined.

(** ** What GetXml writes *)

Lemma textContent_set_textContent ns p n (s : jsstring) :
  textContent (set_textContent (Some s) (createElementNS ns p n)) = s.
Proof. apply textContent_text_nodes. Qed.

(** X11: in the element [GetXml] builds, the texts of the [X509SKI]
    children are the base64 texts of the subject key ids, those of the
    [X509SubjectName] children the subject names themselves, those of the
    [X509Certificate] children the base64 texts of the raw certificate
    data, each in the order of its list, and the text of the first
    [X509CRL] child, if any, is the base64 text of the CRL. *)
Theorem GetXml_texts :
  forall this : KeyInfoX509Data,
    map textContent
      (filter (is_element XmlSignature.ElementNames.X509SKI
                 XmlSignature.NamespaceURI) (children (GetXml this)))
      = map Convert.ToBase64 (list_of (SubjectKeyIds this))
    /\ map textContent
         (filter (is_element XmlSignature.ElementNames.X509SubjectName
                    XmlSignature.NamespaceURI) (children (GetXml this)))
       = list_of (SubjectNames this)
    /\ map textContent
         (filter (is_element XmlSignature.ElementNames.X509Certificate
                    XmlSignature.NamespaceURI) (children (GetXml this)))
       = map (fun c => Convert.ToBase64 (GetRawCertData c))
           (list_of (Certificates this))
    /\ option_map textContent
         (find (is_element XmlSignature.ElementNames.X509CRL
                  XmlSignature.NamespaceURI) (children (GetXml this)))
       = option_map Convert.ToBase64 (CRL this).
Proof.
  intros this.
  destruct (GetXml_children_by_name this) as (_ & Fs & Fn & Fc & Fcrl).
  cbv zeta in Fs, Fn, Fc, Fcrl. rewrite Fs, Fn, Fc, Fcrl, !map_map.
  repeat split.
  - apply map_ext. intros b. apply textContent_set_textContent.
  - transitivity (map (fun n : jsstring => n) (list_of (SubjectNameList this)));
      [|apply map_id].
    apply map_ext. intros n. apply textContent_set_textContent.
  - apply map_ext. intros c. apply textContent_set_textContent.
  - unfold CRL. destruct (x509crl this) as [crl|]; [|reflexivity].
    cbn [option_map]. f_equal. apply textContent_set_textContent.
Qed.

(** X12: when every issuer-serial pair of an instance has a serial number,
    every [X509IssuerSerial] child of the element [GetXml] builds has two
    children, [X509IssuerName] then [X509SerialNumber], whose texts are
    the issuer name and the serial number of the pair, in the order of the
    pairs. *)
Theorem GetXml_IssuerSerial_groups :
  forall (this : KeyInfoX509Data) (pairs : list (jsstring * jsstring)),
    list_of (IssuerSerials this)
      = map (fun ip => {| issuerName := fst ip;
                          serialNumber := Some (snd ip) |}) pairs ->
    map (fun g => (child_names g, map textContent (children g)))
      (filter (is_element XmlSignature.ElementNames.X509IssuerSerial
                 XmlSignature.NamespaceURI) (children (GetXml this)))
      = map (fun ip =>
               ([XmlSignature.ElementNames.X509IssuerName;
                 XmlSignature.ElementNames.X509SerialNumber],
                [fst ip; snd ip]))
          pairs.
Proof.
  intros this pairs H. destruct (GetXml_children_by_name this) as (Fi & _).
  cbv zeta in Fi. unfold IssuerSerials in H. rewrite Fi, H, !map_map.
  apply map_ext. intros [i sn].
  unfold IssuerSerial_xml, createElementNS, set_textContent, appendChild.
  cbn [app child_names children flat_map map issuerName serialNumber fst snd].
  now rewrite !textContent_text_nodes.
Qed.

Lemma GetXml_IssuerSerial_groups_witness :
  list_of (IssuerSerials sample_instance)
    = map (fun ip => {| issuerName := fst ip;
                        serialNumber := Some (snd ip) |})
        [(js "CN=ca", js "17"); (js "CN=cb", js "18")]
  /\ map (fun g => (child_names g, map textContent (children g)))
       (filter (is_element XmlSignature.ElementNames.X509IssuerSerial
                  XmlSignature.NamespaceURI)
          (children (GetXml sample_instance)))
     = map (fun ip =>
              ([XmlSignature.ElementNames.X509IssuerName;
                XmlSignature.ElementNames.X509SerialNumber],
               [fst ip; snd ip]))
         [(js "CN=ca", js "17"); (js "CN=cb", js "18")].
Proof.
  split; [reflexivity|].
  apply (GetXml_IssuerSerial_groups sample_instance
           [(js "CN=ca", js "17"); (js "CN=cb", js "18")]).
  reflexivity.
Defined.

(** X13: for a populated instance all of whose entries are written with
    text, parsing the element [GetXml] builds and serializing the parsed
    instance gives that element again. *)
Theorem GetXml_LoadXml_GetXml :
  forall this : KeyInfoX509Data,
    populated this -> all_written this = true ->
    exists this',
      LoadXml (GetXml this) new_KeyInfoX509Data = (this', Normal tt)
      /\ GetXml this' = GetXml this.
Proof.
  intros this Hp Hw. exists (read_back this). split.
  - apply LoadXml_GetXml; [apply populated_lazily_allocated, Hp|exact Hw].
  - reflexivity.
Qed.

Lemma GetXml_LoadXml_GetXml_witness :
  populated sample_instance /\ all_written sample_instance = true
  /\ exists this',
       LoadXml (GetXml sample_instance) new_KeyInfoX509Data
         = (this', Normal tt)
       /\ GetXml this' = GetXml sample_instance.
Proof.
  assert (P : populated sample_instance).
  { unfold sample_instance.
    repeat (apply populated_step; [|reflexivity]). apply populated_new. }
  split; [exact P|]. split; [reflexivity|].
  apply (GetXml_LoadXml_GetXml sample_instance); [exact P|reflexivity].
Defined.

(** ** What a parse that returns has read *)

Lemma bind_inv {A B} (m : M A) (k : A -> M B) s s' b :
  bind m k s = (s', Normal b) ->
  exists s1 a, m s = (s1, Normal a) /\ k a s1 = (s', Normal b).
Proof.
  unfold bind. destruct (m s) as [s1 [a|e]]; [eauto|discriminate].
Qed.

Lemma restarted_app {A} (prev : option (list A)) (a b : list A) :
  restarted (restarted prev a) b = restarted prev (a ++ b).
Proof.
  unfold restarted, last_one. rewrite rev_app_distr.
  destruct (rev b) as [|x rb]; [reflexivity|]. reflexivity.
Qed.

(** A loop over children whose body, when it returns, has combined some
    entries into one list. *)
Section LoopInversion.

Context {A : Type}.
Variable get : KeyInfoX509Data -> option (list A).
Variable set : option (list A) -> KeyInfoX509Data -> KeyInfoX509Data.
Hypothesis get_set : forall v s, get (set v s) = v.
Hypothesis set_set : forall v w s, set v (set w s) = set v s.
Hypothesis set_get : forall s, set (get s) s = s.
Variable comb : option (list A) -> list A -> option (list A).
Hypothesis comb_nil : forall p, comb p [] = p.
Hypothesis comb_app : forall p a b, comb (comb p a) b = comb p (a ++ b).
Variable body : Node -> M unit.
Variable entries : Node -> list A.
Variable ok : Node -> Prop.
Hypothesis body_inv :
  forall x s s' u,
    body x s = (s', Normal u) ->
    s' = set (comb (get s) (entries x)) s /\ ok x.

Lemma for_of_inv (l : list Node) :
  forall s s' u,
    for_of l body s = (s', Normal u) ->
    s' = set (comb (get s) (flat_map entries l)) s /\ Forall ok l.
Proof.
  induction l as [|x l IH]; intros s s' u H; cbn [for_of flat_map] in *.
  - injection H as <- _. now rewrite comb_nil, set_get.
  - apply bind_inv in H. destruct H as (s1 & u1 & H1 & H).
    apply body_inv in H1. destruct H1 as [-> Hx].
    apply IH in H. destruct H as [-> Hl].
    rewrite get_set, set_set, comb_app. split; [reflexivity|].
    constructor; assumption.
Qed.

End LoopInversion.

Lemma LoadXml_IssuerSerial_inv x s s' u :
  LoadXml_IssuerSerial x s = (s', Normal u) ->
  s' = set_IssuerSerialList
         (filled (IssuerSerialList s) (IssuerSerial_of x)) s
  /\ has_both_children x.
Proof.
  intros H.
  unfold LoadXml_IssuerSerial, bind, lift, static_GetChild in H.
  unfold IssuerSerial_of, has_both_children.
  destruct (find _ (children x)) as [i|]; [|discriminate H].
  destruct (find _ (children x)) as [sn|]; [|discriminate H].
  split; [|split; discriminate].
  destruct (truthy (textContent i) && truthy (textContent sn));
    cbn [when filled] in *.
  - rewrite AddIssuerSerial_Some in H. now injection H as <-.
  - injection H as <-. now destruct s.
Qed.

Lemma LoadXml_SubjectName_inv x s s' u :
  when (truthy (textContent x)) (AddSubjectName (textContent x)) s
    = (s', Normal u) ->
  s' = set_SubjectNameList
         (filled (SubjectNameList s)
            (if truthy (textContent x) then [textContent x] else [])) s
  /\ True.
Proof.
  intros H. split; [|exact I].
  destruct (truthy (textContent x)); cbn [when filled] in *.
  - rewrite AddSubjectName_Normal in H. now injection H as <-.
  - injection H as <-. now destruct s.
Qed.

Lemma LoadXml_Certificate_inv x s s' u :
  when (truthy (textContent x))
    (cert <- FromBase64_call (textContent x) ;;
     AddCertificate (Some (new_X509Certificate cert))) s = (s', Normal u) ->
  s' = set_X509CertificateList
         (filled (X509CertificateList s)
            (decoded_text new_X509Certificate x)) s
  /\ decodable x.
Proof.
  intros H. unfold decoded_text, decodable.
  destruct (truthy (textContent x)); cbn [when filled] in *.
  - unfold bind, FromBase64_call in H.
    destruct (Convert.FromBase64 (textContent x)) as [b|];
      [|discriminate H].
    unfold ret in H. rewrite AddCertificate_Some in H. injection H as <-.
    split; [reflexivity|discriminate].
  - injection H as <-. split; [now destruct s|discriminate].
Qed.

Lemma LoadXml_SKI_inv x s s' u :
  when (truthy (textContent x))
    (skid <- FromBase64_call (textContent x) ;;
     AddSubjectKeyId (SkiBytes skid)) s = (s', Normal u) ->
  s' = set_SubjectKeyIdList
         (restarted (SubjectKeyIdList s) (decoded_text (fun b => b) x)) s
  /\ decodable x.
Proof.
  intros H. unfold decoded_text, decodable.
  destruct (truthy (textContent x)); cbn [when] in *.
  - unfold bind, FromBase64_call in H.
    destruct (Convert.FromBase64 (textContent x)) as [b|];
      [|discriminate H].
    cbn in H. split; [|discriminate].
    destruct s as [e p crl isl [skl|] snl certs k]; cbn in H.
    + now injection H as <-.
    + discriminate H.
  - injection H as <-. split; [now destruct s|discriminate].
Qed.

Lemma decoded_texts {A} (f : bytes -> A) (g : A -> bytes) (l : list Node) :
  (forall b, g (f b) = b) -> Forall decodable l ->
  map (fun a => Some (g a)) (flat_map (decoded_text f) l)
    = map Convert.FromBase64 (filter truthy (map textContent l)).
Proof.
  intros Hg H. induction H as [|x l Hx _ IH]; [reflexivity|].
  cbn [flat_map map filter]. rewrite map_app, IH.
  unfold decoded_text, decodable in *.
  destruct (truthy (textContent x)); [|reflexivity].
  destruct (Convert.FromBase64 (textContent x)) as [b|] eqn:E.
  - cbn. now rewrite Hg, E.
  - now destruct Hx.
Qed.

Lemma texts_of_children (l : list Node) :
  flat_map (fun x => if truthy (textContent x) then [textContent x] else []) l
    = filter truthy (map textContent l).
Proof.
  induction l as [|x l IH]; [reflexivity|]. cbn [flat_map map filter].
  rewrite IH. now destruct (truthy (textContent x)).
Qed.

(** The fields after a parse that returns. *)
Lemma LoadXml_Normal_fields (e : Node) (this this' : KeyInfoX509Data) :
  LoadXml e this = (this', Normal tt) ->
  parses e
  /\ element this' = Some e
  /\ IssuerSerialList this'
     = filled (cleared (IssuerSerialList this))
         (flat_map IssuerSerial_of
            (children_named XmlSignature.ElementNames.X509IssuerSerial e))
  /\ SubjectKeyIdList this'
     = restarted (cleared (SubjectKeyIdList this))
         (flat_map (decoded_text (fun b => b))
            (children_named XmlSignature.ElementNames.X509SKI e))
  /\ SubjectNameList this'
     = filled (cleared (SubjectNameList this))
         (child_texts XmlSignature.ElementNames.X509SubjectName e)
  /\ X509CertificateList this'
     = filled (cleared (X509CertificateList this))
         (flat_map (decoded_text new_X509Certificate)
            (children_named XmlSignature.ElementNames.X509Certificate e))
  /\ x509crl this'
     = match find (is_element XmlSignature.ElementNames.X509CRL
                     XmlSignature.NamespaceURI) (children e) with
       | Some c =>
           if truthy (textContent c) then Convert.FromBase64 (textContent c)
           else None
       | None => None
       end.
Proof.
  intros H. unfold parses, children_named.
  destruct (is_X509Data e) eqn:E;
    [|rewrite LoadXml_rejects in H by exact E; discriminate H].
  rewrite LoadXml_clears in H by exact E.
  set (s0 := LoadXml_cleared e this) in H. unfold LoadXml_children in H.
  (* <X509IssuerSerial> *)
  rewrite (bind_Normal _ _ _ _ _ (GetChildren_Normal _ s0 e eq_refl)) in H.
  apply bind_inv in H. destruct H as (s1 & [] & H1 & H).
  apply (for_of_inv IssuerSerialList set_IssuerSerialList
           ltac:(field_laws) ltac:(field_laws) ltac:(field_laws)
           filled ltac:(reflexivity) (@filled_app _) _ _ _
           LoadXml_IssuerSerial_inv) in H1.
  destruct H1 as [E1 D1].
  (* <X509SKI> *)
  rewrite (bind_Normal _ _ _ _ _
             (GetChildren_Normal _ s1 e ltac:(subst s1; reflexivity))) in H.
  apply bind_inv in H. destruct H as (s2 & [] & H2 & H).
  apply (for_of_inv SubjectKeyIdList set_SubjectKeyIdList
           ltac:(field_laws) ltac:(field_laws) ltac:(field_laws)
           restarted ltac:(reflexivity) (@restarted_app _) _ _ _
           LoadXml_SKI_inv) in H2.
  destruct H2 as [E2 D2].
  (* <X509SubjectName> *)
  rewrite (bind_Normal _ _ _ _ _
             (GetChildren_Normal _ s2 e ltac:(subst s2 s1; reflexivity))) in H.
  apply bind_inv in H. destruct H as (s3 & [] & H3 & H).
  apply (for_of_inv SubjectNameList set_SubjectNameList
           ltac:(field_laws) ltac:(field_laws) ltac:(field_laws)
           filled ltac:(reflexivity) (@filled_app _) _ _ _
           LoadXml_SubjectName_inv) in H3.
  destruct H3 as [E3 _]. rewrite texts_of_children in E3.
  (* <X509Certificate> *)
  rewrite (bind_Normal _ _ _ _ _
             (GetChildren_Normal _ s3 e
                ltac:(subst s3 s2 s1; reflexivity))) in H.
  apply bind_inv in H. destruct H as (s4 & [] & H4 & H).
  apply (for_of_inv X509CertificateList set_X509CertificateList
           ltac:(field_laws) ltac:(field_laws) ltac:(field_laws)
           filled ltac:(reflexivity) (@filled_app _) _ _ _
           LoadXml_Certificate_inv) in H4.
  destruct H4 as [E4 D4].
  (* only one <X509CRL> *)
  rewrite (bind_Normal _ _ _ _ _
             (GetChild_false _ s4 e
                ltac:(subst s4 s3 s2 s1; reflexivity))) in H.
  assert (Hcrl : this' = set_x509crl
            match find (is_element XmlSignature.ElementNames.X509CRL
                          XmlSignature.NamespaceURI) (children e) with
            | Some c =>
                if truthy (textContent c)
                then Convert.FromBase64 (textContent c) else None
            | None => None
            end s4
          /\ match find (is_element XmlSignature.ElementNames.X509CRL
                           XmlSignature.NamespaceURI) (children e) with
             | Some c => decodable c
             | None => True
             end).
  { assert (N4 : set_x509crl None s4 = s4)
      by (subst s4 s3 s2 s1; reflexivity).
    unfold decodable.
    destruct (find _ (children e)) as [c|].
    - destruct (truthy (textContent c)); cbn [when] in H.
      + unfold bind, FromBase64_call in H.
        destruct (Convert.FromBase64 (textContent c)) as [b|];
          [|discriminate H].
        injection H as <-. split; [reflexivity|discriminate].
      + injection H as <-. rewrite N4. split; [reflexivity|discriminate].
    - injection H as <-. now rewrite N4. }
  destruct Hcrl as [-> Dcrl].
  subst s4 s3 s2 s1. unfold child_texts. repeat split; assumption.
Qed.

Lemma list_of_filled_cleared {A} (p : option (list A)) (l : list A) :
  list_of (filled (cleared p) l) = l.
Proof. destruct p, l; reflexivity. Qed.

Lemma last_one_map {A B} (f : A -> B) (l : list A) :
  last_one (map f l) = map f (last_one l).
Proof.
  unfold last_one. rewrite <- map_rev. now destruct (rev l).
Qed.

Lemma list_of_restarted_cleared {A} (p : option (list A)) (l : list A) :
  list_of (restarted (cleared p) l) = last_one l.
Proof.
  unfold restarted. destruct (last_one l) as [|x r] eqn:E.
  - now destruct p.
  - unfold last_one in E. destruct (rev l); [discriminate|].
    now injection E as -> <-.
Qed.

(** X14: after a parse that returns, the subject names are the non-empty
    texts of the [X509SubjectName] children of the element, in document
    order, whatever the instance held before. *)
Theorem LoadXml_SubjectNames :
  forall (e : Node) (this this' : KeyInfoX509Data),
    LoadXml e this = (this', Normal tt) ->
    list_of (SubjectNames this')
      = child_texts XmlSignature.ElementNames.X509SubjectName e.
Proof.
  intros e this this' H.
  destruct (LoadXml_Normal_fields e this this' H) as (_ & _ & _ & _ & E & _).
  unfold SubjectNames. rewrite E. apply list_of_filled_cleared.
Qed.

Lemma LoadXml_SubjectNames_witness :
  LoadXml X509Data_sample new_KeyInfoX509Data = (sample_parsed, Normal tt)
  /\ list_of (SubjectNames sample_parsed)
     = child_texts XmlSignature.ElementNames.X509SubjectName X509Data_sample.
Proof.
  assert (H : LoadXml X509Data_sample new_KeyInfoX509Data
              = (sample_parsed, Normal tt)) by (vm_compute; reflexivity).
  split; [exact H|].
  apply (LoadXml_SubjectNames X509Data_sample new_KeyInfoX509Data sample_parsed H).
Defined.

(** X15: after a parse that returns, the raw data of the certificates are
    the base64 decodings of the non-empty texts of the [X509Certificate]
    children, in document order. *)
Theorem LoadXml_Certificates :
  forall (e : Node) (this this' : KeyInfoX509Data),
    LoadXml e this = (this', Normal tt) ->
    map (fun c => Some (GetRawCertData c)) (list_of (Certificates this'))
      = map Convert.FromBase64
          (child_texts XmlSignature.ElementNames.X509Certificate e).
Proof.
  intros e this this' H.
  destruct (LoadXml_Normal_fields e this this' H)
    as ((_ & _ & _ & D & _) & _ & _ & _ & _ & E & _).
  unfold Certificates. rewrite E, list_of_filled_cleared.
  apply decoded_texts; [reflexivity|exact D].
Qed.

Lemma LoadXml_Certificates_witness :
  LoadXml X509Data_sample new_KeyInfoX509Data = (sample_parsed, Normal tt)
  /\ map (fun c => Some (GetRawCertData c)) (list_of (Certificates sample_parsed))
     = map Convert.FromBase64
         (child_texts XmlSignature.ElementNames.X509Certificate X509Data_sample).
Proof.
  assert (H : LoadXml X509Data_sample new_KeyInfoX509Data
              = (sample_parsed, Normal tt)) by (vm_compute; reflexivity).
  split; [exact H|].
  apply (LoadXml_Certificates X509Data_sample new_KeyInfoX509Data sample_parsed H).
Defined.

(** X16: after a parse that returns, the CRL is the base64 decoding of the
    text of the first [X509CRL] child, and [null] when there is no such
    child or the first one has no text; further [X509CRL] children are not
    read. *)
Theorem LoadXml_CRL :
  forall (e : Node) (this this' : KeyInfoX509Data),
    LoadXml e this = (this', Normal tt) ->
    CRL this'
      = match find (is_element XmlSignature.ElementNames.X509CRL
                      XmlSignature.NamespaceURI) (children e) with
        | Some c =>
            if truthy (textContent c) then Convert.FromBase64 (textContent c)
            else None
        | None => None
        end.
Proof.
  intros e this this' H.
  now destruct (LoadXml_Normal_fields e this this' H)
    as (_ & _ & _ & _ & _ & _ & E).
Qed.

Lemma LoadXml_CRL_witness :
  LoadXml X509Data_sample new_KeyInfoX509Data = (sample_parsed, Normal tt)
  /\ CRL sample_parsed
     = match find (is_element XmlSignature.ElementNames.X509CRL
                     XmlSignature.NamespaceURI) (children X509Data_sample) with
       | Some c =>
           if truthy (textContent c) then Convert.FromBase64 (textContent c)
           else None
       | None => None
       end.
Proof.
  assert (H : LoadXml X509Data_sample new_KeyInfoX509Data
              = (sample_parsed, Normal tt)) by (vm_compute; reflexivity).
  split; [exact H|].
  apply (LoadXml_CRL X509Data_sample new_KeyInfoX509Data sample_parsed H).
Defined.

(** X17: a parse returns only if every [X509IssuerSerial] group has its
    two children, and then the issuer-serial pairs are the texts of the
    two children of the groups in which both texts are non-empty, in
    document order. *)
Theorem LoadXml_IssuerSerials :
  forall (e : Node) (this this' : KeyInfoX509Data),
    LoadXml e this = (this', Normal tt) ->
    Forall has_both_children
      (children_named XmlSignature.ElementNames.X509IssuerSerial e)
    /\ list_of (IssuerSerials this')
       = flat_map IssuerSerial_of
           (children_named XmlSignature.ElementNames.X509IssuerSerial e).
Proof.
  intros e this this' H.
  destruct (LoadXml_Normal_fields e this this' H)
    as ((_ & D & _) & _ & E & _).
  split; [exact D|]. unfold IssuerSerials. rewrite E.
  apply list_of_filled_cleared.
Qed.

Lemma LoadXml_IssuerSerials_witness :
  LoadXml X509Data_sample new_KeyInfoX509Data = (sample_parsed, Normal tt)
  /\ Forall has_both_children
       (children_named XmlSignature.ElementNames.X509IssuerSerial
          X509Data_sample)
  /\ list_of (IssuerSerials sample_parsed)
     = flat_map IssuerSerial_of
         (children_named XmlSignature.ElementNames.X509IssuerSerial
            X509Data_sample).
Proof.
  assert (H : LoadXml X509Data_sample new_KeyInfoX509Data
              = (sample_parsed, Normal tt)) by (vm_compute; reflexivity).
  split; [exact H|].
  apply (LoadXml_IssuerSerials X509Data_sample new_KeyInfoX509Data sample_parsed H).
Defined.

(** X18: after a parse that returns, the subject-key-id list holds the
    decoding of the last non-empty [X509SKI] text only, and nothing when
    there is none: each [AddSubjectKeyId] of the parse starts the list
    over. *)
Theorem LoadXml_SubjectKeyIds :
  forall (e : Node) (this this' : KeyInfoX509Data),
    LoadXml e this = (this', Normal tt) ->
    map Some (list_of (SubjectKeyIds this'))
      = map Convert.FromBase64
          (last_one (child_texts XmlSignature.ElementNames.X509SKI e)).
Proof.
  intros e this this' H.
  destruct (LoadXml_Normal_fields e this this' H)
    as ((_ & _ & D & _) & _ & _ & E & _).
  unfold SubjectKeyIds. rewrite E, list_of_restarted_cleared.
  rewrite <- !last_one_map. f_equal.
  apply (decoded_texts (fun b => b) (fun b => b)); [reflexivity|exact D].
Qed.

Lemma LoadXml_SubjectKeyIds_witness :
  LoadXml X509Data_sample new_KeyInfoX509Data = (sample_parsed, Normal tt)
  /\ map Some (list_of (SubjectKeyIds sample_parsed))
     = map Convert.FromBase64
         (last_one (child_texts XmlSignature.ElementNames.X509SKI
                      X509Data_sample)).
Proof.
  assert (H : LoadXml X509Data_sample new_KeyInfoX509Data
              = (sample_parsed, Normal tt)) by (vm_compute; reflexivity).
  split; [exact H|].
  apply (LoadXml_SubjectKeyIds X509Data_sample new_KeyInfoX509Data sample_parsed H).
Defined.

Example sample_parsed_fields :
  list_of (IssuerSerials sample_parsed)
    = [{| issuerName := js "CN=a"; serialNumber := Some (js "17") |}]
  /\ SubjectKeyIds sample_parsed = Some [[x44; x45; x46]]
  /\ SubjectNames sample_parsed = Some [js "CN=c"; js "CN=d"]
  /\ Certificates sample_parsed = Some [sample_cert]
  /\ CRL sample_parsed = Some [x01; x02].
Proof. vm_compute. repeat split. Qed.

(** ** How a parse ends *)

Lemma triple_bind {A B} P (m : M A) (k : A -> M B) R Qn Qt :
  triple P m R Qt -> (forall a, triple (R a) (k a) Qn Qt) ->
  triple P (bind m k) Qn Qt.
Proof.
  intros Hm Hk s Hs. specialize (Hm s Hs). unfold bind.
  destruct (m s) as [s1 [a|err]]; cbn [fst snd] in *.
  - apply Hk, Hm.
  - exact Hm.
Qed.

Lemma triple_for_of {A} I (l : list A) (body : A -> M unit) Qt :
  (forall x, In x l -> triple I (body x) (fun _ => I) Qt) ->
  triple I (for_of l body) (fun _ => I) Qt.
Proof.
  induction l as [|x l IH]; intros H; cbn [for_of].
  - intros s Hs. exact Hs.
  - apply (triple_bind I _ _ (fun _ => I)).
    + apply H. now left.
    + intros _. apply IH. intros y Hy. apply H. now right.
Qed.

Section ParseEnds.

Variable e : Node.

Lemma triple_GetChildren n :
  triple (reading e) (GetChildren n)
    (fun xnl s => (reading e) s /\ xnl = children_named n e) (broken e).
Proof.
  intros s Hs. rewrite (GetChildren_Normal n s e (proj1 Hs)).
  split; [exact Hs|reflexivity].
Qed.

Lemma not_parses_IssuerSerial x :
  In x (children_named XmlSignature.ElementNames.X509IssuerSerial e) ->
  ~ has_both_children x -> ~ parses e.
Proof.
  intros Hin Hx (_ & F & _). rewrite Forall_forall in F. exact (Hx (F x Hin)).
Qed.

Lemma triple_IssuerSerial x :
  In x (children_named XmlSignature.ElementNames.X509IssuerSerial e) ->
  triple (reading e) (LoadXml_IssuerSerial x) (fun _ => (reading e)) (broken e).
Proof.
  intros Hin s Hs. unfold LoadXml_IssuerSerial, bind, lift, static_GetChild.
  destruct (find (is_element XmlSignature.ElementNames.X509IssuerName
                    XmlSignature.NamespaceURI) (children x)) as [i|] eqn:Ei.
  - destruct (find (is_element XmlSignature.ElementNames.X509SerialNumber
                      XmlSignature.NamespaceURI) (children x)) as [sn|] eqn:En.
    + destruct (truthy (textContent i) && truthy (textContent sn));
        cbn [when].
      * rewrite AddIssuerSerial_Some. destruct s. exact Hs.
      * exact Hs.
    + cbn [fst snd]. repeat split; try apply Hs.
      * right. right. left. reflexivity.
      * apply (not_parses_IssuerSerial x Hin). intros [_ H]. congruence.
  - cbn [fst snd]. repeat split; try apply Hs.
    + right. left. reflexivity.
    + apply (not_parses_IssuerSerial x Hin). intros [H _]. congruence.
Qed.

Lemma triple_SubjectName x :
  triple (reading e)
    (when (truthy (textContent x)) (AddSubjectName (textContent x)))
    (fun _ => (reading e)) (broken e).
Proof.
  intros s Hs. destruct (truthy (textContent x)); cbn [when].
  - rewrite AddSubjectName_Normal. destruct s. exact Hs.
  - exact Hs.
Qed.

Lemma triple_Certificate x :
  In x (children_named XmlSignature.ElementNames.X509Certificate e) ->
  triple (reading e)
    (when (truthy (textContent x))
       (cert <- FromBase64_call (textContent x) ;;
        AddCertificate (Some (new_X509Certificate cert))))
    (fun _ => (reading e)) (broken e).
Proof.
  intros Hin s Hs. destruct (truthy (textContent x)) eqn:T; cbn [when].
  - unfold bind, FromBase64_call.
    destruct (Convert.FromBase64 (textContent x)) as [b|] eqn:D.
    + unfold ret. rewrite AddCertificate_Some. destruct s. exact Hs.
    + cbn [fst snd throw]. repeat split; try apply Hs.
      * right. right. right. reflexivity.
      * intros (_ & _ & _ & F & _). rewrite Forall_forall in F.
        exact (F x Hin T D).
  - exact Hs.
Qed.

Lemma triple_SKI x :
  In x (children_named XmlSignature.ElementNames.X509SKI e) ->
  triple (reading e)
    (when (truthy (textContent x))
       (skid <- FromBase64_call (textContent x) ;;
        AddSubjectKeyId (SkiBytes skid)))
    (fun _ => (reading e)) (broken e).
Proof.
  intros Hin s Hs. destruct (truthy (textContent x)) eqn:T; cbn [when].
  - unfold bind, FromBase64_call.
    destruct (Convert.FromBase64 (textContent x)) as [b|] eqn:D.
    + unfold ret. destruct Hs as (He & Hk & Hc).
      destruct (SubjectKeyIdList s) as [l|] eqn:El; [|congruence].
      rewrite (AddSubjectKeyId_SkiBytes s l b El). destruct s.
      repeat split; [exact He|discriminate|exact Hc].
    + cbn [fst snd throw]. repeat split; try apply Hs.
      * right. right. right. reflexivity.
      * intros (_ & _ & F & _). rewrite Forall_forall in F.
        exact (F x Hin T D).
  - exact Hs.
Qed.

Lemma triple_CRL :
  triple (reading e)
    (x509el <- GetChild XmlSignature.ElementNames.X509CRL false ;;
     match x509el with
     | Some x509el =>
         when (truthy (textContent x509el))
           (crl <- FromBase64_call (textContent x509el) ;;
            modify (set_x509crl (Some crl)))
     | None => ret tt
     end)
    (fun _ _ => True) (broken e).
Proof.
  intros s Hs.
  rewrite (bind_Normal _ _ _ _ _ (GetChild_false _ s e (proj1 Hs))).
  destruct (find _ (children e)) as [c|] eqn:F; [|exact I].
  destruct (truthy (textContent c)) eqn:T; cbn [when]; [|exact I].
  unfold bind, FromBase64_call.
  destruct (Convert.FromBase64 (textContent c)) as [b|] eqn:D; [exact I|].
  cbn [fst snd throw]. repeat split; try apply Hs.
  - right. right. right. reflexivity.
  - intros (_ & _ & _ & _ & G). rewrite F in G. exact (G T D).
Qed.

Lemma triple_LoadXml_children :
  triple (reading e) LoadXml_children (fun _ _ => True) (broken e).
Proof.
  unfold LoadXml_children.
  eapply triple_bind; [apply triple_GetChildren|]. intros xnl.
  eapply (triple_bind _ _ _ (fun _ => (reading e))).
  { intros s [Hs ->]. revert s Hs.
    apply triple_for_of. intros x. apply triple_IssuerSerial. }
  intros _.
  eapply triple_bind; [apply triple_GetChildren|]. clear xnl. intros xnl.
  eapply (triple_bind _ _ _ (fun _ => (reading e))).
  { intros s [Hs ->]. revert s Hs.
    apply triple_for_of. intros x. apply triple_SKI. }
  intros _.
  eapply triple_bind; [apply triple_GetChildren|]. clear xnl. intros xnl.
  eapply (triple_bind _ _ _ (fun _ => (reading e))).
  { intros s [Hs ->]. revert s Hs.
    apply triple_for_of. intros x _. apply triple_SubjectName. }
  intros _.
  eapply triple_bind; [apply triple_GetChildren|]. clear xnl. intros xnl.
  eapply (triple_bind _ _ _ (fun _ => (reading e))).
  { intros s [Hs ->]. revert s Hs.
    apply triple_for_of. intros x. apply triple_Certificate. }
  intros _. apply triple_CRL.
Qed.

(** However a parse on an instance with an allocated subject-key-id list
    ends: a throw is one of the parse errors, of an element that is not
    read to its end, and if the element was accepted it has been taken and
    the CRL is [null]. *)
Lemma LoadXml_ends (this : KeyInfoX509Data) :
  SubjectKeyIdList this <> None ->
  match snd (LoadXml e this) with
  | Normal _ => True
  | Throw err =>
      parse_error err /\ ~ parses e
      /\ (is_X509Data e = true ->
          x509crl (fst (LoadXml e this)) = None
          /\ element (fst (LoadXml e this)) = Some e)
  end.
Proof.
  intros Hk. destruct (is_X509Data e) eqn:E.
  - rewrite LoadXml_clears by exact E.
    assert (R : (reading e) (LoadXml_cleared e this)).
    { repeat split. cbn. destruct (SubjectKeyIdList this);
        [discriminate|congruence]. }
    pose proof (triple_LoadXml_children _ R) as H.
    destruct (snd (LoadXml_children (LoadXml_cleared e this))); [exact I|].
    destruct H as (H1 & H2 & H3 & _ & H4). repeat split; assumption.
  - rewrite LoadXml_rejects by exact E. cbn [fst snd]. repeat split.
    + left. reflexivity.
    + intros (H & _). congruence.
    + discriminate.
    + discriminate.
Qed.

End ParseEnds.

(** X21: a parse of an [X509Data] element that throws does not restore
    the instance: the element has been taken and the CRL is [null],
    whatever CRL the instance held. *)
Theorem LoadXml_throw_keeps_reset :
  forall (e : Node) (this this' : KeyInfoX509Data) (err : JsError),
    reachable this -> is_X509Data e = true ->
    LoadXml e this = (this', Throw err) ->
    CRL this' = None /\ element this' = Some e.
Proof.
  intros e this this' err R E H.
  pose proof (LoadXml_ends e this (reachable_SubjectKeyIdList this R)) as G.
  rewrite H in G. cbn [fst snd] in G. apply G, E.
Qed.

Lemma LoadXml_throw_keeps_reset_witness :
  reachable sample_instance
  /\ is_X509Data X509Data_without_serial = true
  /\ LoadXml X509Data_without_serial sample_instance
     = (fst (LoadXml X509Data_without_serial sample_instance),
        Throw (XmlError ELEMENT_MISSING
                 XmlSignature.ElementNames.X509SerialNumber))
  /\ CRL sample_instance = Some [x01; x02]
  /\ CRL (fst (LoadXml X509Data_without_serial sample_instance)) = None
  /\ element (fst (LoadXml X509Data_without_serial sample_instance))
     = Some X509Data_without_serial.
Proof.
  assert (R : reachable sample_instance).
  { unfold sample_instance. repeat apply reachable_call.
    apply (reachable_new None None_). reflexivity. }
  assert (H : LoadXml X509Data_without_serial sample_instance
     = (fst (LoadXml X509Data_without_serial sample_instance),
        Throw (XmlError ELEMENT_MISSING
                 XmlSignature.ElementNames.X509SerialNumber)))
    by (vm_compute; reflexivity).
  split; [exact R|]. split; [reflexivity|]. split; [exact H|].
  split; [reflexivity|].
  apply (LoadXml_throw_keeps_reset X509Data_without_serial sample_instance
           _ _ R eq_refl H).
Defined.

(** ** AddSubjectKeyId with text that is not base64 *)

(** X22: [AddSubjectKeyId] with a text that the base64 decoder refuses
    throws the decoder's error, and the subject-key-id list has been
    emptied before: the entry the instance held is gone. *)
Theorem AddSubjectKeyId_bad_text_empties :
  forall (this : KeyInfoX509Data) (subjectKeyId : jsstring),
    SubjectKeyIds this <> None ->
    Convert.FromBase64 subjectKeyId = None ->
    AddSubjectKeyId (SkiString subjectKeyId) this
      = (set_SubjectKeyIdList (Some []) this, Throw InvalidCharacterError).
Proof.
  intros this t Hk Hd. unfold AddSubjectKeyId. rewrite Hd.
  destruct this as [e p crl isl [skl|] snl certs k]; [reflexivity|].
  now destruct Hk.
Qed.

Lemma AddSubjectKeyId_bad_text_empties_witness :
  SubjectKeyIds sample_instance = Some [[x41; x42; x43]]
  /\ Convert.FromBase64 (js "Q") = None
  /\ AddSubjectKeyId (SkiString (js "Q")) sample_instance
     = (set_SubjectKeyIdList (Some []) sample_instance,
        Throw InvalidCharacterError).
Proof.
  split; [reflexivity|]. split; [reflexivity|].
  apply (AddSubjectKeyId_bad_text_empties sample_instance (js "Q")).
  - discriminate.
  - reflexivity.
Defined.

(** ** Parsing what GetXml builds, for any instance *)

Lemma flat_map_map {A B C} (f : A -> B) (g : B -> list C) (l : list A) :
  flat_map g (map f l) = flat_map (fun x => g (f x)) l.
Proof. induction l as [|x l IH]; [reflexivity|]. cbn. now rewrite IH. Qed.

Lemma flat_map_filter {A} (g : A -> list A) (p : A -> bool) (l : list A) :
  (forall x, g x = if p x then [x] else []) -> flat_map g l = filter p l.
Proof.
  intros H. induction l as [|x l IH]; [reflexivity|]. cbn.
  rewrite H, IH. now destruct (p x).
Qed.

Lemma IssuerSerial_xml_finds (p : jsstring) (x : X509IssuerSerial) :
  find (is_element XmlSignature.ElementNames.X509IssuerName
          XmlSignature.NamespaceURI) (children (IssuerSerial_xml p x))
    = Some (Element XmlSignature.NamespaceURI p
              XmlSignature.ElementNames.X509IssuerName
              (text_nodes (Some (issuerName x))))
  /\ find (is_element XmlSignature.ElementNames.X509SerialNumber
             XmlSignature.NamespaceURI) (children (IssuerSerial_xml p x))
     = Some (Element XmlSignature.NamespaceURI p
               XmlSignature.ElementNames.X509SerialNumber
               (text_nodes (serialNumber x))).
Proof. split; reflexivity. Qed.

Lemma IssuerSerial_of_xml (p : jsstring) (x : X509IssuerSerial) :
  IssuerSerial_of (IssuerSerial_xml p x)
    = if IssuerSerial_written x then [x] else [].
Proof.
  unfold IssuerSerial_of. destruct (IssuerSerial_xml_finds p x) as [-> ->].
  unfold IssuerSerial_written. rewrite textContent_text_nodes.
  change truthy with (@nonempty N).
  destruct x as [i [sn|]]; cbn [issuerName serialNumber].
  - rewrite textContent_text_nodes.
    now destruct (nonempty i && nonempty sn).
  - cbn [text_nodes textContent map List.concat nonempty].
    now rewrite andb_false_r.
Qed.

Lemma decoded_text_xml {A} (f : bytes -> A) ns p n (b : bytes) :
  decoded_text f (Element ns p n (text_nodes (Some (Convert.ToBase64 b))))
    = if nonempty b then [f b] else [].
Proof.
  unfold decoded_text.
  now rewrite textContent_text_nodes, truthy_ToBase64, FromBase64_ToBase64.
Qed.

Lemma decodable_xml ns p n (b : bytes) :
  decodable (Element ns p n (text_nodes (Some (Convert.ToBase64 b)))).
Proof.
  intros _. rewrite textContent_text_nodes, FromBase64_ToBase64. discriminate.
Qed.

Lemma Forall_map_intro {A B} (P : B -> Prop) (f : A -> B) (l : list A) :
  (forall x, P (f x)) -> Forall P (map f l).
Proof. intros H. induction l; constructor; auto. Qed.

(** Every element [GetXml] builds is read to its end. *)
Lemma parses_GetXml (this : KeyInfoX509Data) : parses (GetXml this).
Proof.
  destruct (GetXml_children_by_name this) as (Fi & Fs & Fn & Fc & Fcrl).
  cbv zeta in Fi, Fs, Fn, Fc, Fcrl. unfold parses, children_named.
  rewrite Fi, Fs, Fc, Fcrl. split; [apply is_X509Data_GetXml|].
  split; [|split; [|split]].
  - apply Forall_map_intro. intros x. unfold has_both_children.
    destruct (IssuerSerial_xml_finds (prefix this) x) as [-> ->].
    split; discriminate.
  - apply Forall_map_intro. intros b. apply decodable_xml.
  - apply Forall_map_intro. intros c. apply decodable_xml.
  - destruct (x509crl this) as [crl|]; [apply decodable_xml|exact I].
Qed.

(** X23: the element [GetXml] builds for an instance every issuer-serial
    pair of which has a serial number is read to its end by any reachable
    instance, which then holds the entries that were written with text,
    in their order: the pairs with non-empty issuer name and serial
    number, the non-empty subject names, the certificates with non-empty
    raw data, the CRL if it is not empty, and of the non-empty subject key
    ids the last one. *)
Theorem LoadXml_GetXml_any_instance :
  forall this that : KeyInfoX509Data,
    Forall (fun x => serialNumber x <> None) (list_of (IssuerSerials this)) ->
    reachable that ->
    exists this',
      LoadXml (GetXml this) that = (this', Normal tt)
      /\ list_of (IssuerSerials this')
         = filter IssuerSerial_written (list_of (IssuerSerials this))
      /\ list_of (SubjectKeyIds this')
         = last_one (filter nonempty (list_of (SubjectKeyIds this)))
      /\ list_of (SubjectNames this')
         = filter nonempty (list_of (SubjectNames this))
      /\ list_of (Certificates this')
         = filter (fun c => nonempty (GetRawCertData c))
             (list_of (Certificates this))
      /\ CRL this'
         = match CRL this with
           | Some crl => if nonempty crl then Some crl else None
           | None => None
           end.
Proof.
  intros this that _ R.
  pose proof (LoadXml_ends (GetXml this) that
                (reachable_SubjectKeyIdList that R)) as G.
  destruct (LoadXml (GetXml this) that) as [this' r] eqn:E. cbn [snd] in G.
  destruct r as [[]|err]; [|destruct G as (_ & G & _);
                             now destruct (G (parses_GetXml this))].
  exists this'. split; [reflexivity|].
  destruct (LoadXml_Normal_fields _ _ _ E)
    as (_ & _ & Ei & Es & En & Ec & Ecrl).
  destruct (GetXml_children_by_name this) as (Fi & Fs & Fn & Fc & Fcrl).
  cbv zeta in Fi, Fs, Fn, Fc, Fcrl.
  unfold child_texts, children_named in *.
  rewrite Fi in Ei. rewrite Fs in Es. rewrite Fn in En. rewrite Fc in Ec.
  rewrite Fcrl in Ecrl.
  unfold IssuerSerials, SubjectKeyIds, SubjectNames, Certificates, CRL.
  rewrite Ei, Es, En, Ec, Ecrl.
  rewrite !list_of_filled_cleared, list_of_restarted_cleared, !flat_map_map.
  repeat split.
  - apply flat_map_filter. intros x. apply IssuerSerial_of_xml.
  - f_equal. apply flat_map_filter. intros b. apply decoded_text_xml.
  - rewrite map_map.
    rewrite (map_ext _ (fun n : jsstring => n))
      by (intros n; apply textContent_set_textContent).
    now rewrite map_id.
  - apply flat_map_filter. intros [raw]. apply decoded_text_xml.
  - destruct (x509crl this) as [crl|]; [|reflexivity]. cbn [option_map].
    unfold CRL_xml, createElementNS, set_textContent.
    rewrite textContent_text_nodes, truthy_ToBase64, FromBase64_ToBase64.
    reflexivity.
Qed.

Lemma LoadXml_GetXml_any_instance_witness :
  Forall (fun x => serialNumber x <> None)
    (list_of (IssuerSerials instance_with_empty_entries))
  /\ reachable sample_instance
  /\ exists this',
       LoadXml (GetXml instance_with_empty_entries) sample_instance
         = (this', Normal tt)
       /\ list_of (IssuerSerials this')
          = filter IssuerSerial_written
              (list_of (IssuerSerials instance_with_empty_entries))
       /\ list_of (SubjectKeyIds this')
          = last_one (filter nonempty
                        (list_of (SubjectKeyIds instance_with_empty_entries)))
       /\ list_of (SubjectNames this')
          = filter nonempty
              (list_of (SubjectNames instance_with_empty_entries))
       /\ list_of (Certificates this')
          = filter (fun c => nonempty (GetRawCertData c))
              (list_of (Certificates instance_with_empty_entries))
       /\ CRL this'
          = match CRL instance_with_empty_entries with
            | Some crl => if nonempty crl then Some crl else None
            | None => None
            end.
Proof.
  assert (S : Forall (fun x => serialNumber x <> None)
                (list_of (IssuerSerials instance_with_empty_entries))).
  { vm_compute. repeat constructor; discriminate. }
  assert (R : reachable sample_instance).
  { unfold sample_instance. repeat apply reachable_call.
    apply (reachable_new None None_). reflexivity. }
  split; [exact S|]. split; [exact R|].
  apply (LoadXml_GetXml_any_instance instance_with_empty_entries
           sample_instance S R).
Defined.

(** ** LoadXml and the X509IssuerSerial groups *)









Example C6_witness_values :
  list_of (IssuerSerials
             (fst (LoadXml X509Data_with_empty_serial new_KeyInfoX509Data)))
    = []
  /\ flat_map IssuerSerial_of
       (children_named XmlSignature.ElementNames.X509IssuerSerial
          X509Data_with_empty_serial) = []
  /\ child_texts XmlSignature.ElementNames.X509SubjectName
       X509Data_with_empty_serial = [js "CN=b"].
Proof. vm_compute. repeat split. Qed.
